(** * PKCS11-cryptography-keys: locator parsing, session resolution,
      object lookup and key usage

    A shallow embedding of
    - [pkcs11_URI/pkcs11_URI.py]        (class [PKCS11URI]),
    - [card_token/PKCS11_key_definition.py],
    - [sessions/PKCS11_key_session.py], [sessions/PKCS11_admin_session.py].

    Python [str] values are modelled by [string], read as the UTF-8 bytes of
    the text; Python integers by [Z]; a [dict] by the list of its items in
    insertion order (keys unique); exceptions by the [Raise] constructor of
    [result]. *)

From Stdlib Require Import String Ascii List ZArith Bool Lia.
Import ListNotations.
Open Scope string_scope.
Open Scope Z_scope.

(** ** Outcomes of fallible code *)

(** The exceptions the embedded code raises.  The first group are the
    [raise Exception(...)] sentences of [pkcs11_URI.py], named after the
    failure they report; the second group are raised by the interpreter or
    by the device runtime. *)
Inductive exn : Type :=
| NotALocator                        (* "Provided string is not an URI" *)
| MalformedLocator (rest : string)   (* "Bad location: {0}" *)
| MalformedQuery (rest : string)     (* "Bad query: {0}" *)
| BadQueryInURI                      (* "Bad query in URI" *)
| LibraryMismatch (tag : string)     (* "PKCS11 library does not corespond ..." *)
| SessionAttributeMismatch (tag : string)  (* "{0} is of value {1}" *)
| LoginRequiredNoPin                 (* "Login is required, but pin was not provided" *)
| LoginFailure                       (* PyKCS11Error raised by session.login *)
| KeyError (key : string)
| TypeError (msg : string).

Inductive result (A : Type) : Type :=
| Return (a : A)
| Raise (e : exn).
Arguments Return {A} a.
Arguments Raise {A} e.

Definition bind {A B} (r : result A) (k : A -> result B) : result B :=
  match r with
  | Return a => k a
  | Raise e => Raise e
  end.

(** ** Python string primitives *)

Module Py.

Definition len (s : string) : Z := Z.of_nat (String.length s).

(** [s[i:]] for [0 <= i] given as a [nat]. *)
Fixpoint drop (n : nat) (s : string) : string :=
  match n, s with
  | O, _ => s
  | S _, EmptyString => EmptyString
  | S n', String _ r => drop n' r
  end.

Fixpoint take (n : nat) (s : string) : string :=
  match n, s with
  | O, _ => EmptyString
  | S _, EmptyString => EmptyString
  | S n', String c r => String c (take n' r)
  end.

(** A slice bound: negative bounds count from the end, then the bound is
    clamped to [0 .. len s]. *)
Definition bound (s : string) (i : Z) : nat :=
  let i' := if i <? 0 then i + len s else i in
  Z.to_nat (Z.min (Z.max i' 0) (len s)).

(** [s[i:j]] *)
Definition slice (s : string) (i j : Z) : string :=
  let lo := bound s i in
  let hi := bound s j in
  take (hi - lo) (drop lo s).

(** [s[i:]] *)
Definition slice_from (s : string) (i : Z) : string :=
  drop (bound s i) s.

(** [s.find(c)] for a one-character needle: the index of the first
    occurrence, or [-1]. *)
Fixpoint find (c : ascii) (s : string) : Z :=
  match s with
  | EmptyString => -1
  | String x r =>
      if Ascii.eqb x c then 0
      else let k := find c r in if k <? 0 then -1 else k + 1
  end.

(** [s.partition(c)] for a one-character separator. *)
Fixpoint partition (c : ascii) (s : string) : string * string * string :=
  match s with
  | EmptyString => (EmptyString, EmptyString, EmptyString)
  | String x r =>
      if Ascii.eqb x c then (EmptyString, String c EmptyString, r)
      else let '(h, sep, t) := partition c r in (String x h, sep, t)
  end.

(** [str.isspace] on the characters below 128: TAB, LF, VT, FF, CR,
    FS, GS, RS, US and the space. *)
Definition isspace (c : ascii) : bool :=
  let n := nat_of_ascii c in
  ((9 <=? n) && (n <=? 13) || (28 <=? n) && (n <=? 32))%nat.

Fixpoint lstrip (s : string) : string :=
  match s with
  | EmptyString => EmptyString
  | String c r => if isspace c then lstrip r else s
  end.

Fixpoint rstrip (s : string) : string :=
  match s with
  | EmptyString => EmptyString
  | String c r =>
      match rstrip r with
      | EmptyString => if isspace c then EmptyString else String c EmptyString
      | r' => String c r'
      end
  end.

(** [s.strip()] *)
Definition strip (s : string) : string := rstrip (lstrip s).

(** [s.startswith(p)] *)
Definition startswith (p s : string) : bool := String.prefix p s.

(** [s.replace(old, new)] for a non-empty [old]: every occurrence found
    scanning from the left is replaced, and the scan resumes after it. *)
Fixpoint replace_fuel (fuel : nat) (old new s : string) : string :=
  match fuel with
  | O => s
  | S fuel' =>
      match s with
      | EmptyString => EmptyString
      | String c r =>
          if String.prefix old s
          then new ++ replace_fuel fuel' old new
                        (drop (String.length old) s)
          else String c (replace_fuel fuel' old new r)
      end
  end.

Definition replace (old new s : string) : string :=
  replace_fuel (S (String.length s)) old new s.

Definition lower_char (c : ascii) : ascii :=
  let n := nat_of_ascii c in
  if ((65 <=? n) && (n <=? 90))%nat then ascii_of_nat (n + 32) else c.

(** [s.lower()] on the characters below 128. *)
Fixpoint lower (s : string) : string :=
  match s with
  | EmptyString => EmptyString
  | String c r => String (lower_char c) (lower r)
  end.

End Py.

(** ** urllib.parse.unquote *)

Definition hex_digit (c : ascii) : option nat :=
  let n := nat_of_ascii c in
  if ((48 <=? n) && (n <=? 57))%nat then Some (n - 48)%nat
  else if ((65 <=? n) && (n <=? 70))%nat then Some (n - 55)%nat
  else if ((97 <=? n) && (n <=? 102))%nat then Some (n - 87)%nat
  else None.

(** [_unquote_impl]: every [%XY] with two hexadecimal digits becomes the
    byte [0xXY]; a [%] that is not followed by two hexadecimal digits stays.
    The decoded text is never scanned again. *)
Fixpoint percent_decode (s : string) : string :=
  match s with
  | EmptyString => EmptyString
  | String c r =>
      if Ascii.eqb c "%" then
        match r with
        | String h1 (String h2 r') =>
            match hex_digit h1, hex_digit h2 with
            | Some a, Some b =>
                String (ascii_of_nat (16 * a + b)) (percent_decode r')
            | _, _ => String c (percent_decode r)
            end
        | _ => String c (percent_decode r)
        end
      else String c (percent_decode r)
  end.

(** A byte [10xxxxxx]. *)
Definition continuation (n : nat) : bool :=
  ((128 <=? n) && (n <=? 191))%nat.

(** The second byte a lead byte admits: after [E0] only [A0..BF] (no
    overlong form), after [ED] only [80..9F] (no surrogate), after [F0] only
    [90..BF], after [F4] only [80..8F] (nothing above U+10FFFF). *)
Definition second_ok (lead n : nat) : bool :=
  (if lead =? 224 then (160 <=? n) && (n <=? 191)
   else if lead =? 237 then (128 <=? n) && (n <=? 159)
   else if lead =? 240 then (144 <=? n) && (n <=? 191)
   else if lead =? 244 then (128 <=? n) && (n <=? 143)
   else continuation n)%nat.

(** U+FFFD, as text. *)
Definition replacement : string :=
  String "239" (String "191" (String "189" EmptyString)).

(** [bytes.decode("utf-8", "replace")], the text read again as its UTF-8
    bytes: a well-formed sequence stays; a byte that starts none, a
    sequence cut by a byte that does not continue it and a sequence cut by
    the end each give one U+FFFD, and decoding goes on after the bytes that
    were well-formed so far. *)
Fixpoint utf8_replace (s : string) : string :=
  match s with
  | EmptyString => EmptyString
  | String c0 r0 =>
      let n0 := nat_of_ascii c0 in
      if (n0 <? 128)%nat then String c0 (utf8_replace r0)
      else if ((n0 <? 194) || (244 <? n0))%nat
      then replacement ++ utf8_replace r0
      else
        match r0 with
        | EmptyString => replacement
        | String c1 r1 =>
            if negb (second_ok n0 (nat_of_ascii c1))
            then replacement ++ utf8_replace r0
            else if (n0 <? 224)%nat
            then String c0 (String c1 (utf8_replace r1))
            else
              match r1 with
              | EmptyString => replacement
              | String c2 r2 =>
                  if negb (continuation (nat_of_ascii c2))
                  then replacement ++ utf8_replace r1
                  else if (n0 <? 240)%nat
                  then String c0 (String c1 (String c2 (utf8_replace r2)))
                  else
                    match r2 with
                    | EmptyString => replacement
                    | String c3 r3 =>
                        if negb (continuation (nat_of_ascii c3))
                        then replacement ++ utf8_replace r2
                        else String c0 (String c1 (String c2 (String c3
                               (utf8_replace r3))))
                    end
              end
        end
  end.

(** [_generate_unquoted_parts]: the text in runs of characters below 128
    and runs of the others; a run of the first kind ([run], gathered so far)
    is percent-decoded and the bytes decoded as UTF-8, the others are kept. *)
Fixpoint unquote_parts (run s : string) : string :=
  match s with
  | EmptyString => utf8_replace (percent_decode run)
  | String c r =>
      if (nat_of_ascii c <? 128)%nat
      then unquote_parts (run ++ String c EmptyString) r
      else utf8_replace (percent_decode run)
           ++ String c (unquote_parts EmptyString r)
  end.

Fixpoint has_percent (s : string) : bool :=
  match s with
  | EmptyString => false
  | String c r => Ascii.eqb c "%" || has_percent r
  end.

(** [unquote(string)], with [encoding="utf-8"] and [errors="replace"]: a
    text without [%] is returned as it is. *)
Definition unquote (s : string) : string :=
  if has_percent s then unquote_parts EmptyString s else s.

(** ** The locator: class [PKCS11URI] *)

(** A [dict[str, str]]: its items in insertion order, keys unique. *)
Definition dict := list (string * string).

(** [d.get(key)]; [None] when [key in d] is false. *)
Fixpoint dict_get (k : string) (d : dict) : option string :=
  match d with
  | [] => None
  | (k', v) :: r => if String.eqb k' k then Some v else dict_get k r
  end.

(** [d[key] = value]: an existing key keeps its place and takes the new
    value, a new key is appended. *)
Fixpoint dict_set (k v : string) (d : dict) : dict :=
  match d with
  | [] => [(k, v)]
  | (k', v') :: r =>
      if String.eqb k' k then (k', v) :: r else (k', v') :: dict_set k v r
  end.

(** The object state of a [PKCS11URI]: [_location], [_query] and
    [_operations]. *)
Record PKCS11URI : Type := mkURI {
  _location : dict;
  _query : dict;
  _operations : list (Z * string)
}.

(** [cls(location, query)] *)
Definition cls (location query : dict) : PKCS11URI :=
  mkURI location query [].

(** *** The pattern [(.+?)(\?.+?)?(#.+)?$] under [re.match] *)

Module Grob.

(** [.] matches every character but the line feed. *)
Definition dot (c : ascii) : bool := negb (Ascii.eqb c "010").

(** [$] matches at the end of the text and before a final line feed. *)
Definition at_end (s : string) : bool :=
  match s with
  | EmptyString => true
  | String c EmptyString => Ascii.eqb c "010"
  | _ => false
  end.

(** [.+$], greedy: the longest run is tried first. *)
Fixpoint dots_greedy_end (s : string) : option string :=
  match s with
  | EmptyString => None
  | String c r =>
      if dot c then
        match dots_greedy_end r with
        | Some u => Some (String c u)
        | None => if at_end r then Some (String c EmptyString) else None
        end
      else None
  end.

(** [(#.+)?$]: the group is tried before it is skipped. *)
Definition fragment (s : string) : option (option string) :=
  let skip := if at_end s then Some None else None in
  match s with
  | String c r =>
      if Ascii.eqb c "#" then
        match dots_greedy_end r with
        | Some u => Some (Some (String c u))
        | None => skip
        end
      else skip
  | EmptyString => skip
  end.

(** [.+?] followed by the continuation [k], lazy: the shortest run is
    tried first. *)
Fixpoint dots_lazy {A} (k : string -> option A) (s : string)
  : option (string * A) :=
  match s with
  | EmptyString => None
  | String c r =>
      if dot c then
        match k r with
        | Some x => Some (String c EmptyString, x)
        | None =>
            match dots_lazy k r with
            | Some (u, x) => Some (String c u, x)
            | None => None
            end
        end
      else None
  end.

(** [(\?.+?)?] followed by [(#.+)?$]. *)
Definition query_part (s : string) : option (option string * option string) :=
  let skip :=
    match fragment s with
    | Some g3 => Some (None, g3)
    | None => None
    end in
  match s with
  | String c r =>
      if Ascii.eqb c "?" then
        match dots_lazy fragment r with
        | Some (u, g3) => Some (Some (String c u), g3)
        | None => skip
        end
      else skip
  | EmptyString => skip
  end.

(** [grob.match(uri)]: [None], or the three groups. *)
Definition grob_match (uri : string)
  : option (string * option string * option string) :=
  match dots_lazy query_part uri with
  | Some (g1, (g2, g3)) => Some (g1, g2, g3)
  | None => None
  end.

End Grob.

(** *** [PKCS11URI.parse] *)

(** The outcome of one turn of a [while True] loop. *)
Inductive turn : Type :=
| Break (d : dict)
| Again (rest : string) (d : dict)
| Bad.

(** One turn of the loops of lines 93-105 and 111-121. *)
Definition pair_turn (rest : string) (d : dict) : turn :=
  let a := Py.find ";" rest in
  let b := Py.find "=" rest in
  if (0 <? a) && (a <? b) then Bad
  else if a <? 0 then
    Break (dict_set (Py.slice rest 0 b) (unquote (Py.slice_from rest (b + 1))) d)
  else
    Again (Py.slice_from rest (a + 1))
          (dict_set (Py.slice rest 0 b) (unquote (Py.slice rest (b + 1) a)) d).

(** The loop, run for at most [fuel] turns; [None] when the turns are used
    up ([pairs_total] shows that [pairs] never is). *)
Fixpoint pairs_fuel (fuel : nat) (bad : string -> exn) (rest : string)
  (d : dict) : option (result dict) :=
  match fuel with
  | O => None
  | S fuel' =>
      match pair_turn rest d with
      | Bad => Some (Raise (bad rest))
      | Break d' => Some (Return d')
      | Again rest' d' => pairs_fuel fuel' bad rest' d'
      end
  end.

Definition pairs (bad : string -> exn) (rest : string) (d : dict)
  : option (result dict) :=
  pairs_fuel (S (String.length rest)) bad rest d.

(** [PKCS11URI.parse(uri)]; [None] stands for a loop that does not end.
    The pattern has three groups and its first group is never [None], so the
    tests [len(g) == 3] and [g[0] is not None] hold and
    ["URI was not parsed properly"] is never raised. *)
Definition parse (uri : string) : option (result PKCS11URI) :=
  match Grob.grob_match uri with
  | Some (g0, g1, g2) =>
      let '(schema, sep, rest) := Py.partition ":" g0 in
      if String.eqb schema "pkcs11" && (0 <? Py.len (Py.strip rest)) then
        match pairs MalformedLocator rest [] with
        | None => None
        | Some (Raise e) => Some (Raise e)
        | Some (Return location) =>
            match g1 with
            | None => Some (Return (cls location []))
            | Some q =>
                if Py.startswith "?" q then
                  match pairs MalformedQuery (Py.slice_from q 1) [] with
                  | None => None
                  | Some (Raise e) => Some (Raise e)
                  | Some (Return query) => Some (Return (cls location query))
                  end
                else Some (Raise BadQueryInURI)
            end
        end
      else Some (Return (cls [] []))
  | None => Some (Raise NotALocator)
  end.

(** ** PyKCS11: constants and the device runtime *)

Definition CKA_CLASS : Z := 0.
Definition CKA_PRIVATE : Z := 2.
Definition CKA_LABEL : Z := 3.
Definition CKA_KEY_TYPE : Z := 256.
Definition CKA_ID : Z := 258.
Definition CKA_ENCRYPT : Z := 260.
Definition CKA_DECRYPT : Z := 261.
Definition CKA_WRAP : Z := 262.
Definition CKA_UNWRAP : Z := 263.
Definition CKA_SIGN : Z := 264.
Definition CKA_SIGN_RECOVER : Z := 265.
Definition CKA_VERIFY : Z := 266.
Definition CKA_VERIFY_RECOVER : Z := 267.
Definition CKA_DERIVE : Z := 268.

Definition CKO_DATA : Z := 0.
Definition CKO_CERTIFICATE : Z := 1.
Definition CKO_PUBLIC_KEY : Z := 2.
Definition CKO_PRIVATE_KEY : Z := 3.
Definition CKO_SECRET_KEY : Z := 4.

Definition CKF_LOGIN_REQUIRED : Z := 4.
Definition CKF_RW_SESSION : Z := 2.
Definition CKF_SERIAL_SESSION : Z := 4.
Definition CKU_SO : Z := 0.
Definition CKU_USER : Z := 1.

Record CK_INFO : Type := {
  li_manufacturerID : string;
  li_libraryDescription : string
}.

Record CK_SLOT_INFO : Type := {
  si_slotDescription : string;
  si_manufacturerID : string
}.

Record CK_TOKEN_INFO : Type := {
  ti_label : string;
  ti_manufacturerID : string;
  ti_model : string;
  ti_serialNumber : string;
  ti_flags : Z
}.

Record CK_SESSION_INFO : Type := {
  ses_slotID : Z;
  ses_state : Z;
  ses_flags : Z
}.

Record CK_MECHANISM_INFO : Type := {
  flags : Z;
  flags_dict : list (Z * string)
}.

(** The value of a search-template entry. *)
Inductive attr_value : Type :=
| AStr (s : string)
| ABytes (b : string)
| AInt (n : Z).

Definition template := list (Z * attr_value).
Definition Handle := Z.
Definition Slot := Z.

(** What a session answers.  [getAttributeValue(h, [a1; ...; an])] answers
    with one value per attribute asked for, so the model gives the answer by
    attribute: [CKA_CLASS], [CKA_KEY_TYPE] and [CKA_ID] (the value, or [None]
    where the object has none), [CKA_LABEL], and the usage bits (a boolean,
    or [None] where the token has no value).  [login_ok pin user_type] tells
    whether [login] returns or raises.  Faults of the device other than a
    refused login are not modelled. *)
Record Session : Type := {
  getSessionInfo : CK_SESSION_INFO;
  login_ok : string -> Z -> bool;
  findObjects : template -> list Handle;
  class_of : Handle -> option Z;
  key_type_answer : Handle -> option Z;
  id_answer : Handle -> option string;
  label_of : Handle -> string;
  bit_of : Handle -> Z -> option bool
}.

(** The key type and the id of a key: a key object has both. *)
Definition key_type_of (s : Session) (h : Handle) : Z :=
  match key_type_answer s h with
  | Some k => k
  | None => 0
  end.

Definition id_of (s : Session) (h : Handle) : string :=
  match id_answer s h with
  | Some b => b
  | None => EmptyString
  end.

(** What a loaded [PyKCS11Lib] answers. *)
Record Library : Type := {
  getInfo : CK_INFO;
  getSlotList : list Slot;                (* tokenPresent=True *)
  getTokenInfo : Slot -> CK_TOKEN_INFO;
  getSlotInfo : Slot -> CK_SLOT_INFO;
  openSession : Slot -> Z -> Session;
  getMechanismList : Slot -> list Z;
  getMechanismInfo : Slot -> Z -> CK_MECHANISM_INFO
}.

(** What the calls leave behind: the number of sessions open on the device
    and the calls made, oldest first. *)
Inductive event : Type :=
| EvOpen (sl : Slot)
| EvClose
| EvInput (prompt : string)
| EvLogin (pin : string) (user_type : Z).

Record World : Type := mkWorld {
  open_count : nat;
  calls : list event
}.

Definition world0 : World := mkWorld 0 [].

Definition do_open (sl : Slot) (w : World) : World :=
  mkWorld (S (open_count w)) (calls w ++ [EvOpen sl]).

Definition do_close (w : World) : World :=
  mkWorld (Nat.pred (open_count w)) (calls w ++ [EvClose]).

Definition do_input (prompt : string) (w : World) : World :=
  mkWorld (open_count w) (calls w ++ [EvInput prompt]).

Definition do_login (pin : string) (user_type : Z) (w : World) : World :=
  mkWorld (open_count w) (calls w ++ [EvLogin pin user_type]).

(** The value of a field of [CK_SESSION_INFO]. *)
Inductive field_value : Type :=
| FStr (s : string)
| FInt (n : Z).

(** [a != b] for a [str] [a]. *)
Definition str_ne (a : string) (b : field_value) : bool :=
  match b with
  | FStr s => negb (String.eqb a s)
  | FInt _ => true
  end.

(** The module [pkcs11_URI/definitions.py]: each [CK_*_translation] sends a
    locator attribute to the field of the info record it is compared with
    (the table entry composed with [info.__dict__[...]]), and
    [PKCS11_type_translation] sends a type name to an object class. *)
Record definitions : Type := {
  CK_INFO_translation : string -> option (CK_INFO -> string);
  CK_SESSION_INFO_translation : string -> option (CK_SESSION_INFO -> field_value);
  CK_SLOT_INFO_translation : string -> option (CK_SLOT_INFO -> string);
  CK_TOKEN_INFO_translation : string -> option (CK_TOKEN_INFO -> string);
  PKCS11_type_translation : string -> option Z
}.

(** ** [PKCS11URI.get_session], [get_key], [get_private_key] *)

Section Resolver.

Variable defs : definitions.

(** [PyKCS11Lib()] and then [load(path)] or [load()]. *)
Variable load : option string -> Library.

(** The builtin [input]; [None] when it hands back no value. *)
Variable input : string -> option string.

(** Lines 139-147: the library's info against the locator. *)
Fixpoint check_info (info : CK_INFO) (items : dict) : result unit :=
  match items with
  | [] => Return tt
  | (tag, v) :: r =>
      match CK_INFO_translation defs tag with
      | Some f =>
          if negb (String.eqb v (Py.strip (f info)))
          then Raise (LibraryMismatch tag)
          else check_info info r
      | None => check_info info r
      end
  end.

(** One of the two [if tag in ...] blocks of lines 158-173, on the field
    [field] the table gives for the tag: the new [found] and [slot], and
    whether the loop is left by [break]. *)
Definition tag_block (sl : Slot) (v : string) (field : option string)
  (found : bool) (slot : option Slot) : bool * option Slot * bool :=
  match field with
  | Some x =>
      if negb (String.eqb v (Py.strip x)) then (true, None, true)
      else (true, Some sl, false)
  | None => (found, slot, false)
  end.

(** Lines 157-173: the loop over the locator's attributes for one slot. *)
Fixpoint match_tags (sl : Slot) (si : CK_SLOT_INFO) (ti : CK_TOKEN_INFO)
  (items : dict) (found : bool) (slot : option Slot) : bool * option Slot :=
  match items with
  | [] => (found, slot)
  | (tag, v) :: r =>
      let '(found, slot, brk) :=
        tag_block sl v
          (option_map (fun f => f si) (CK_SLOT_INFO_translation defs tag))
          found slot in
      if brk then (found, slot)
      else
        let '(found, slot, brk) :=
          tag_block sl v
            (option_map (fun f => f ti) (CK_TOKEN_INFO_translation defs tag))
            found slot in
        if brk then (found, slot) else match_tags sl si ti r found slot
  end.

(** [ti.flags & CKF_LOGIN_REQUIRED != 0] *)
Definition requires_login (ti : CK_TOKEN_INFO) : bool :=
  negb (Z.land (ti_flags ti) CKF_LOGIN_REQUIRED =? 0).

(** Lines 151-179: the loop over the slots; gives [slot] and
    [login_required]. *)
Fixpoint slot_loop (library : Library) (location : dict) (slots : list Slot)
  (slot : option Slot) (login_required : bool) : option Slot * bool :=
  match slots with
  | [] => (slot, login_required)
  | sl :: r =>
      let ti := getTokenInfo library sl in
      let si := getSlotInfo library sl in
      let login_required :=
        if requires_login ti then true else login_required in
      let '(found, slot) := match_tags sl si ti location false slot in
      if found then
        match slot with
        | None => slot_loop library location r None login_required
        | Some _ => (slot, login_required)
        end
      else slot_loop library location r slot login_required
  end.

(** Lines 148-179. *)
Definition select_slot (library : Library) (location : dict)
  : option Slot * bool :=
  slot_loop library location (getSlotList library) None false.

(** Lines 185-195: the first attribute the session's info contradicts. *)
Fixpoint check_session (ses_info : CK_SESSION_INFO) (items : dict)
  : option string :=
  match items with
  | [] => None
  | (tag, v) :: r =>
      match CK_SESSION_INFO_translation defs tag with
      | Some f =>
          if str_ne v (f ses_info) then Some tag
          else check_session ses_info r
      | None => check_session ses_info r
      end
  end.

(** Lines 217-224. *)
Definition read_operations (library : Library) (slot : Slot)
  : list (Z * string) :=
  flat_map
    (fun m =>
       let mi := getMechanismInfo library slot m in
       flat_map
         (fun '(mf, name) =>
            if negb (Z.land (flags mi) mf =? 0)
            then [(m, Py.replace "CKF_" EmptyString name)]
            else [])
         (flags_dict mi))
    (getMechanismList library slot).

Definition prompt (norm_user : bool) : string :=
  if norm_user then "Please enter PIN:"
  else "Please enter security officer PIN(SO PIN):".

(** [get_session(self, norm_user)]: the world after the call, and either the
    exception raised or the object after the call together with the value
    returned. *)
Definition get_session (self : PKCS11URI) (norm_user : bool) (w : World)
  : World * result (PKCS11URI * option Session) :=
  let library := load (dict_get "module-path" (_query self)) in
  let info := getInfo library in
  match check_info info (_location self) with
  | Raise e => (w, Raise e)
  | Return _ =>
      let '(slot, login_required) := select_slot library (_location self) in
      match slot with
      | None => (w, Return (self, None))
      | Some sl =>
          let session :=
            openSession library sl (Z.lor CKF_SERIAL_SESSION CKF_RW_SESSION) in
          let w := do_open sl w in
          let ses_info := getSessionInfo session in
          match check_session ses_info (_location self) with
          | Some tag => (do_close w, Raise (SessionAttributeMismatch tag))
          | None =>
              let pin := dict_get "pin-value" (_query self) in
              if login_required then
                let '(pin, w) :=
                  match pin with
                  | Some p => (Some p, w)
                  | None =>
                      (input (prompt norm_user),
                       do_input (prompt norm_user) w)
                  end in
                match pin with
                | Some p =>
                    let user_type := if norm_user then CKU_USER else CKU_SO in
                    let w := do_login p user_type w in
                    if login_ok session p user_type then
                      (w, Return (mkURI (_location self) (_query self)
                                    (read_operations library sl),
                                  Some session))
                    else (w, Raise LoginFailure)
                | None => (w, Raise LoginRequiredNoPin)
                end
              else (w, Return (self, Some session))
          end
      end
  end.

(** *** Object search *)

Definition __get_object_value (value : string) : option attr_value :=
  Some (AStr value).

(** [bytes(value, "UTF-8")] *)
Definition __get_id_value (value : string) : option attr_value :=
  Some (ABytes value).

Definition __get_type_value (value : string) : option attr_value :=
  option_map AInt (PKCS11_type_translation defs value).

(** [self._PKCS11_key_translation] *)
Definition _PKCS11_key_translation (tag : string)
  : option (Z * (string -> option attr_value)) :=
  if String.eqb tag "object" then Some (CKA_LABEL, __get_object_value)
  else if String.eqb tag "id" then Some (CKA_ID, __get_id_value)
  else if String.eqb tag "type" then Some (CKA_CLASS, __get_type_value)
  else None.

(** [template.append((key, val))] when [val] is not [None]. *)
Definition append_val (tpl : template) (key : Z) (val : option attr_value)
  : template :=
  match val with
  | Some x => (tpl ++ [(key, x)])%list
  | None => tpl
  end.

(** Lines 232-240. *)
Fixpoint key_template (items : dict) (tpl : template) : template :=
  match items with
  | [] => tpl
  | (tag, v) :: r =>
      match _PKCS11_key_translation tag with
      | Some (key, operation) =>
          key_template r (append_val tpl key (operation v))
      | None => key_template r tpl
      end
  end.

Definition warning : string := "There is more to what meets the eye.".

(** [get_key(self, session)]: the tuple returned, or the exception raised,
    and the lines printed.  [key_type] is the answer for [CKA_KEY_TYPE] as it
    comes; [bytes(attrs[1])] raises a [TypeError] when the answer for
    [CKA_ID] is [None]. *)
Definition get_key (self : PKCS11URI) (session : option Session)
  : result (option string * option Z * option Handle) * list string :=
  let tpl := key_template (_location self) [] in
  match session with
  | Some s =>
      if (0 <? Z.of_nat (length tpl)) then
        let objs := findObjects s tpl in
        match objs with
        | key :: _ =>
            let out :=
              if (1 <? Z.of_nat (length objs)) then [warning] else [] in
            let key_type := key_type_answer s key in
            match id_answer s key with
            | Some keyid => (Return (Some keyid, key_type, Some key), out)
            | None =>
                (Raise (TypeError "cannot convert 'NoneType' object to bytes"),
                 out)
            end
        | [] => (Return (None, None, None), [])
        end
      else (Return (None, None, None), [])
  | None => (Return (None, None, None), [])
  end.

(** The variables of the loop of lines 262-277. *)
Record pk_vars : Type := mkVars {
  pk_template : template;
  pk_found : bool;
  pk_keyid : option attr_value;
  pk_label : option attr_value
}.

(** Lines 262-277. *)
Fixpoint private_key_loop (items : dict) (st : pk_vars) : pk_vars :=
  match items with
  | [] => st
  | (tag, v) :: r =>
      match _PKCS11_key_translation tag with
      | Some (key, operation) =>
          if String.eqb tag "type" then
            let val := operation "private" in
            private_key_loop r
              (mkVars (append_val (pk_template st) key val) true
                      (pk_keyid st) (pk_label st))
          else
            let val := operation v in
            let label :=
              if String.eqb tag "object" then val else pk_label st in
            let keyid :=
              if String.eqb tag "object" then pk_keyid st
              else if String.eqb tag "id" then val else pk_keyid st in
            private_key_loop r
              (mkVars (append_val (pk_template st) key val) (pk_found st)
                      keyid label)
      | None => private_key_loop r st
      end
  end.

(** Lines 258-284: the search template of [get_private_key], with the
    variables [keyid] and [label]. *)
Definition private_key_template (self : PKCS11URI) : pk_vars :=
  let st := private_key_loop (_location self) (mkVars [] false None None) in
  if negb (pk_found st) then
    mkVars (append_val (pk_template st) CKA_CLASS (__get_type_value "private"))
           (pk_found st) (pk_keyid st) (pk_label st)
  else st.

(** [get_private_key(self, session)]: the tuple returned and the lines
    printed. *)
Definition get_private_key (self : PKCS11URI) (session : option Session)
  : (option attr_value * option attr_value * option Z * option Handle)
    * list string :=
  let st := private_key_template self in
  let tpl := pk_template st in
  let none := ((pk_keyid st, pk_label st, None, None), []) in
  match session with
  | Some s =>
      if (0 <? Z.of_nat (length tpl)) then
        let objs := findObjects s tpl in
        match objs with
        | key :: _ =>
            let out :=
              if (1 <? Z.of_nat (length objs)) then [warning] else [] in
            ((Some (ABytes (id_of s key)), Some (AStr (label_of s key)),
              Some (key_type_of s key), Some key), out)
        | [] => none
        end
      else none
  | None => none
  end.

End Resolver.

(** ** [card_token/PKCS11_key_definition.py] *)

Inductive KeyObjectTypes : Type := private | public | certificate.

Inductive OperationTypes : Type := CRYPT | SIGN | WRAP | DERIVE | RECOVER.

(** [str(k)] for a member of [OperationTypes]. *)
Definition str_OperationTypes (k : OperationTypes) : string :=
  match k with
  | CRYPT => "OperationTypes.CRYPT"
  | SIGN => "OperationTypes.SIGN"
  | WRAP => "OperationTypes.WRAP"
  | DERIVE => "OperationTypes.DERIVE"
  | RECOVER => "OperationTypes.RECOVER"
  end.

Definition _key_classes (c : Z) : option KeyObjectTypes :=
  if c =? CKO_PRIVATE_KEY then Some private
  else if c =? CKO_PUBLIC_KEY then Some public
  else if c =? CKO_CERTIFICATE then Some certificate
  else None.

(** [_key_usage]: the items of the inner dict, or [None] for a class that
    is no key of the outer one. *)
Definition _key_usage (tag : KeyObjectTypes)
  : option (list (OperationTypes * Z)) :=
  match tag with
  | private =>
      Some [(CRYPT, CKA_DECRYPT); (SIGN, CKA_SIGN); (WRAP, CKA_UNWRAP);
            (DERIVE, CKA_DERIVE); (RECOVER, CKA_SIGN_RECOVER)]
  | public =>
      Some [(CRYPT, CKA_ENCRYPT); (SIGN, CKA_VERIFY); (WRAP, CKA_WRAP);
            (RECOVER, CKA_VERIFY_RECOVER)]
  | certificate => None
  end.

(** The dict [_usage] of a [PKCS11KeyUsage], one field per key; a value is
    [True], [False] or [None]. *)
Record PKCS11KeyUsage : Type := mkUsage {
  usage_crypt : option bool;
  usage_sign : option bool;
  usage_wrap : option bool;
  usage_derive : option bool;
  usage_recover : option bool
}.

(** [PKCS11KeyUsage.__init__(crypt, sign, wrap, recover, derive=None)] *)
Definition PKCS11KeyUsage_init (crypt sign wrap recover : option bool)
  (derive : option (option bool)) : PKCS11KeyUsage :=
  mkUsage crypt sign wrap
          (match derive with Some d => d | None => None end)
          recover.

(** [PKCS11KeyUsage.get] *)
Definition usage_get (u : PKCS11KeyUsage) (key : OperationTypes)
  : option bool :=
  match key with
  | CRYPT => usage_crypt u
  | SIGN => usage_sign u
  | WRAP => usage_wrap u
  | DERIVE => usage_derive u
  | RECOVER => usage_recover u
  end.

(** Keyword arguments: a [dict] from names to values. *)
Definition kwargs := list (string * option bool).

Fixpoint kw_get (k : string) (d : kwargs) : option (option bool) :=
  match d with
  | [] => None
  | (k', v) :: r => if String.eqb k' k then Some v else kw_get k r
  end.

Fixpoint kw_set (k : string) (v : option bool) (d : kwargs) : kwargs :=
  match d with
  | [] => [(k, v)]
  | (k', v') :: r =>
      if String.eqb k' k then (k', v) :: r else (k', v') :: kw_set k v r
  end.

(** [dict(zip(names, values))] *)
Fixpoint dict_zip (names : list string) (values : list (option bool))
  (d : kwargs) : kwargs :=
  match names, values with
  | n :: ns, v :: vs => dict_zip ns vs (kw_set n v d)
  | _, _ => d
  end.

Definition is_parameter (k : string) : bool :=
  existsb (String.eqb k) ["crypt"; "sign"; "wrap"; "recover"; "derive"].

(** [PKCS11KeyUsage] called on the unpacked dict [kw]: a keyword that is no parameter, or a parameter
    without default that is not given, is a [TypeError]. *)
Definition PKCS11KeyUsage_call (kw : kwargs) : result PKCS11KeyUsage :=
  if negb (forallb (fun '(k, _) => is_parameter k) kw)
  then Raise (TypeError "unexpected keyword argument")
  else
    match kw_get "crypt" kw, kw_get "sign" kw,
          kw_get "wrap" kw, kw_get "recover" kw with
    | Some c, Some s, Some w, Some r =>
        Return (PKCS11KeyUsage_init c s w r (kw_get "derive" kw))
    | _, _, _, _ => Raise (TypeError "missing required argument")
    end.

(** [read_key_usage_from_key(session, key_ref)] *)
Definition read_key_usage_from_key (session : Session) (key_ref : Handle)
  : result (option PKCS11KeyUsage) :=
  match class_of session key_ref with
  | Some c =>
      match _key_classes c with
      | Some tag =>
          match _key_usage tag with
          | Some items =>
              let atr_template := map snd items in
              let usage_list :=
                map (fun '(k, _) =>
                       Py.lower (Py.replace "OperationTypes." EmptyString
                                   (str_OperationTypes k)))
                    items in
              let attrs := map (bit_of session key_ref) atr_template in
              let rezult := dict_zip usage_list attrs [] in
              bind (PKCS11KeyUsage_call rezult) (fun u => Return (Some u))
          | None => Raise (KeyError "KeyObjectTypes.certificate")
          end
      | None => Return None
      end
  | None => Return None
  end.

(** ** The sessions that take no locator *)

(** The loop of [PKCS11KeySession.open] (lines 57-65) and of
    [PKCS11AdminSession.open] (lines 82-90): gives [slot] and
    [_login_required]. *)
Fixpoint label_loop (library : Library) (_token_label : option string)
  (slots : list Slot) (slot : option Slot) (login_required : bool)
  : option Slot * bool :=
  match slots with
  | [] => (slot, login_required)
  | sl :: r =>
      let ti := getTokenInfo library sl in
      let login_required :=
        if requires_login ti then true else login_required in
      let slot :=
        match _token_label with
        | None => Some sl
        | Some _ => slot
        end in
      let same :=
        match _token_label with
        | Some l => String.eqb (Py.strip (ti_label ti)) l
        | None => false
        end in
      if same then (Some sl, login_required)
      else label_loop library _token_label r slot login_required
  end.

Module KeySession.

Record PKCS11KeySession : Type := {
  _pksc11_lib : string;
  _token_label : option string;
  _pin : string;
  _key_label : option string
}.

(** [open], lines 52-72: up to the login on the session opened.  Gives the
    slot chosen and the session. *)
Definition open (load : option string -> Library) (self : PKCS11KeySession)
  (w : World) : World * result (option (Slot * Session)) :=
  let library := load (Some (_pksc11_lib self)) in
  let '(slot, login_required) :=
    label_loop library (_token_label self) (getSlotList library) None false in
  match slot with
  | Some sl =>
      let session :=
        openSession library sl (Z.lor CKF_SERIAL_SESSION CKF_RW_SESSION) in
      let w := do_open sl w in
      if login_required then
        let w := do_login (_pin self) CKU_USER w in
        if login_ok session (_pin self) CKU_USER
        then (w, Return (Some (sl, session)))
        else (w, Raise LoginFailure)
      else (w, Return (Some (sl, session)))
  | None => (w, Return None)
  end.

End KeySession.

Module AdminSession.

Record PKCS11AdminSession : Type := {
  _key_id : option string;
  _norm_user : bool;
  _pksc11_lib : string;
  _token_label : option string;
  _pin : string;
  _key_label : option string;
  _login_required : bool
}.

(** [open], lines 77-100: up to the login on the session opened. *)
Definition open (load : option string -> Library) (self : PKCS11AdminSession)
  (w : World) : World * result (option (Slot * Session)) :=
  let library := load (Some (_pksc11_lib self)) in
  let '(slot, login_required) :=
    label_loop library (_token_label self) (getSlotList library) None
               (_login_required self) in
  match slot with
  | Some sl =>
      let session :=
        openSession library sl (Z.lor CKF_SERIAL_SESSION CKF_RW_SESSION) in
      let w := do_open sl w in
      if login_required then
        let user_type := if _norm_user self then CKU_USER else CKU_SO in
        let w := do_login (_pin self) user_type w in
        if login_ok session (_pin self) user_type
        then (w, Return (Some (sl, session)))
        else (w, Raise LoginFailure)
      else (w, Return (Some (sl, session)))
  | None => (w, Return None)
  end.

End AdminSession.

(** ** Predicates of the statements *)

Section Matching.

Variable defs : definitions.
Variable library : Library.

(** The attribute names a slot or a token field. *)
Definition recognized (item : string * string) : bool :=
  match CK_SLOT_INFO_translation defs (fst item),
        CK_TOKEN_INFO_translation defs (fst item) with
  | None, None => false
  | _, _ => true
  end.

(** The attribute agrees with the trimmed fields of slot [sl] it names. *)
Definition attr_matches (sl : Slot) (item : string * string) : bool :=
  match CK_SLOT_INFO_translation defs (fst item) with
  | Some f => String.eqb (snd item) (Py.strip (f (getSlotInfo library sl)))
  | None => true
  end
  &&
  match CK_TOKEN_INFO_translation defs (fst item) with
  | Some g => String.eqb (snd item) (Py.strip (g (getTokenInfo library sl)))
  | None => true
  end.

(** Every recognized attribute of the locator agrees with slot [sl]. *)
Definition slot_matches (location : dict) (sl : Slot) : bool :=
  forallb (attr_matches sl) location.

Definition token_requires_login (sl : Slot) : bool :=
  requires_login (getTokenInfo library sl).

End Matching.

Definition rw_serial : Z := Z.lor CKF_SERIAL_SESSION CKF_RW_SESSION.

(** The calls of lines 197-212 once [login_required] holds: the PIN is asked
    for unless the locator has [pin-value], and [login] is called with the
    PIN obtained. *)
Definition login_calls (input : string -> option string)
  (self : PKCS11URI) (norm_user : bool) : list event :=
  let user_type := if norm_user then CKU_USER else CKU_SO in
  match dict_get "pin-value" (_query self) with
  | Some p => [EvLogin p user_type]
  | None =>
      EvInput (prompt norm_user)
      :: match input (prompt norm_user) with
         | Some p => [EvLogin p user_type]
         | None => []
         end
  end.

(** The exceptions raised after the login was found to be required. *)
Definition raised_at_login (e : exn) : bool :=
  match e with
  | LoginRequiredNoPin | LoginFailure => true
  | _ => false
  end.

(** Every class entry of the template asks for a private key. *)
Definition class_forced (tpl : template) : Prop :=
  forall x, In (CKA_CLASS, x) tpl -> x = AInt CKO_PRIVATE_KEY.

Definition has_class (tpl : template) : Prop :=
  In (CKA_CLASS, AInt CKO_PRIVATE_KEY) tpl.

Definition byte_01_02 : string := String "001" (String "002" EmptyString).

(** ** A reference instance of the tables and of the device *)

(** Modelled from the spec: [pkcs11_URI/definitions.py] is not among the
    sources.  Section 6 has the location attributes name fields of the
    library, slot, token and session descriptors, and has [type] range over
    public, private, certificate, secret-key and data; the attribute names
    are those listed in the comment above [PKCS11URI.parse]. *)
Definition spec_definitions : definitions := {|
  CK_INFO_translation tag :=
    if String.eqb tag "library-description" then Some li_libraryDescription
    else if String.eqb tag "library-manufacturer" then Some li_manufacturerID
    else None;
  CK_SESSION_INFO_translation tag := None;
  CK_SLOT_INFO_translation tag :=
    if String.eqb tag "slot-description" then Some si_slotDescription
    else if String.eqb tag "slot-manufacturer" then Some si_manufacturerID
    else None;
  CK_TOKEN_INFO_translation tag :=
    if String.eqb tag "token" then Some ti_label
    else if String.eqb tag "manufacturer" then Some ti_manufacturerID
    else if String.eqb tag "model" then Some ti_model
    else if String.eqb tag "serial" then Some ti_serialNumber
    else None;
  PKCS11_type_translation tag :=
    if String.eqb tag "public" then Some CKO_PUBLIC_KEY
    else if String.eqb tag "private" then Some CKO_PRIVATE_KEY
    else if String.eqb tag "certificate" then Some CKO_CERTIFICATE
    else if String.eqb tag "secret-key" then Some CKO_SECRET_KEY
    else if String.eqb tag "data" then Some CKO_DATA
    else None
|}.

Module Mock.

(** A token with the given label, padded with blanks as the device gives
    it, which does or does not ask for a login. *)
Definition token (label : string) (login : bool) : CK_TOKEN_INFO := {|
  ti_label := label ++ "   ";
  ti_manufacturerID := "ACME";
  ti_model := "M1";
  ti_serialNumber := "0001";
  ti_flags := if login then 1029 else 1025
|}.

(** An object on the token. *)
Record object : Type := {
  o_handle : Handle;
  o_class : Z;
  o_key_type : Z;
  o_id : string;
  o_label : string;
  o_bits : list (Z * bool)
}.

Definition entry_holds (o : object) (e : Z * attr_value) : bool :=
  match e with
  | (a, AInt n) => (a =? CKA_CLASS) && (n =? o_class o)
  | (a, AStr s) => (a =? CKA_LABEL) && String.eqb s (o_label o)
  | (a, ABytes b) => (a =? CKA_ID) && String.eqb b (o_id o)
  end.

Fixpoint lookup {A} (h : Z) (l : list (Z * A)) : option A :=
  match l with
  | [] => None
  | (k, x) :: r => if k =? h then Some x else lookup h r
  end.

Definition by_handle (objs : list object) (h : Handle) : option object :=
  lookup h (map (fun o => (o_handle o, o)) objs).

(** A session on a token that holds [objs] and accepts [pin]. *)
Definition session (pin : string) (objs : list object) : Session := {|
  getSessionInfo := {| ses_slotID := 0; ses_state := 0; ses_flags := 6 |};
  login_ok p _ := String.eqb p pin;
  findObjects tpl :=
    map o_handle (filter (fun o => forallb (entry_holds o) tpl) objs);
  class_of h := option_map o_class (by_handle objs h);
  key_type_answer h := option_map o_key_type (by_handle objs h);
  id_answer h := option_map o_id (by_handle objs h);
  label_of h :=
    match by_handle objs h with Some o => o_label o | None => EmptyString end;
  bit_of h a :=
    match by_handle objs h with
    | Some o => lookup a (o_bits o)
    | None => None
    end
|}.

(** A library whose slots carry the given tokens, every token accepting
    [pin] and holding [objs]. *)
Definition library (tokens : list (Slot * CK_TOKEN_INFO)) (pin : string)
  (objs : list object) : Library := {|
  getInfo := {| li_manufacturerID := "ACME"; li_libraryDescription := "mock" |};
  getSlotList := map fst tokens;
  getTokenInfo sl :=
    match lookup sl tokens with Some t => t | None => token EmptyString false end;
  getSlotInfo sl :=
    {| si_slotDescription := "reader"; si_manufacturerID := "ACME" |};
  openSession sl fl := session pin objs;
  getMechanismList sl := [1; 64];
  getMechanismInfo sl m :=
    {| flags := if m =? 1 then 10240 else 8192;
       flags_dict := [(2048, "CKF_SIGN"); (8192, "CKF_VERIFY")] |}
|}.

Definition key1 : object := {|
  o_handle := 11; o_class := CKO_PRIVATE_KEY; o_key_type := 3;
  o_id := "k1"; o_label := "signing";
  o_bits := [(CKA_DECRYPT, true); (CKA_SIGN, false); (CKA_UNWRAP, true);
             (CKA_SIGN_RECOVER, true)]
|}.

Definition key2 : object := {|
  o_handle := 12; o_class := CKO_PRIVATE_KEY; o_key_type := 0;
  o_id := "k2"; o_label := "signing";
  o_bits := [(CKA_DECRYPT, true); (CKA_SIGN, true); (CKA_UNWRAP, false);
             (CKA_DERIVE, false); (CKA_SIGN_RECOVER, false)]
|}.

Definition pub1 : object := {|
  o_handle := 21; o_class := CKO_PUBLIC_KEY; o_key_type := 3;
  o_id := "k1"; o_label := "signing";
  o_bits := [(CKA_ENCRYPT, true); (CKA_VERIFY, true); (CKA_WRAP, false);
             (CKA_VERIFY_RECOVER, false); (CKA_DERIVE, true)]
|}.

(** Two slots: token [A] asks for a login, token [B] does not. *)
Definition two_tokens : list (Slot * CK_TOKEN_INFO) :=
  [(1, token "A" true); (2, token "B" false)].

Definition load (path : option string) : Library :=
  library two_tokens "1234" [key1; key2; pub1].

(** A device with the single token [A], which asks for a login. *)
Definition load_one (path : option string) : Library :=
  library [(1, token "A" true)] "1234" [key1; key2; pub1].

Definition no_input (prompt : string) : option string := None.
Definition typed_1234 (prompt : string) : option string := Some "1234".

End Mock.


Definition key_session_no_label : KeySession.PKCS11KeySession := {|
  KeySession._pksc11_lib := "/usr/lib/mock.so";
  KeySession._token_label := None;
  KeySession._pin := "1234";
  KeySession._key_label := None
|}.

Definition admin_session_no_label : AdminSession.PKCS11AdminSession := {|
  AdminSession._key_id := None;
  AdminSession._norm_user := true;
  AdminSession._pksc11_lib := "/usr/lib/mock.so";
  AdminSession._token_label := None;
  AdminSession._pin := "1234";
  AdminSession._key_label := None;
  AdminSession._login_required := false
|}.

(** ** Texts of the statements about the parser *)

(** The character occurs in the text. *)
Fixpoint has_char (c : ascii) (s : string) : bool :=
  match s with
  | EmptyString => false
  | String x r => Ascii.eqb x c || has_char c r
  end.

(** None of the characters occurs in the text. *)
Definition free_of (cs : list ascii) (s : string) : bool :=
  forallb (fun c => negb (has_char c s)) cs.

(** [";".join(k + "=" + v for k, v in items)] *)
Fixpoint render_pairs (items : list (string * string)) : string :=
  match items with
  | [] => EmptyString
  | [(k, v)] => k ++ "=" ++ v
  | (k, v) :: r => k ++ "=" ++ v ++ ";" ++ render_pairs r
  end.

(** The text of a locator with the given scheme segment, query segment and
    fragment. *)
Definition segments (loc : string) (q frag : option string) : string :=
  loc
  ++ match q with Some x => "?" ++ x | None => EmptyString end
  ++ match frag with Some f => "#" ++ f | None => EmptyString end.

(** The assignments [d[k] = unquote(v)] for the items in turn. *)
Definition set_all (items : list (string * string)) (d : dict) : dict :=
  fold_left (fun d kv => dict_set (fst kv) (unquote (snd kv)) d) items d.

(** A name and a value of the scheme segment: no separator of the pair
    grammar, of the segments or of lines in the name, and none but [=] in
    the value. *)
Definition location_item (kv : string * string) : bool :=
  free_of [";"; "="; "?"; "#"; "010"]%char (fst kv)
  && free_of [";"; "?"; "#"; "010"]%char (snd kv).

(** A name and a value of the query segment. *)
Definition query_item (kv : string * string) : bool :=
  free_of [";"; "="; "#"; "010"]%char (fst kv)
  && free_of [";"; "#"; "010"]%char (snd kv).

(** The fragment and the query segment with their marks, and the texts
    the pattern takes for them. *)
Definition frag_text (frag : option string) : string :=
  match frag with Some f => "#" ++ f | None => EmptyString end.

Definition frag_ok (frag : option string) : Prop :=
  match frag with
  | Some f => f <> EmptyString /\ has_char "010" f = false
  | None => True
  end.

Definition query_text (q : option string) : string :=
  match q with Some x => "?" ++ x | None => EmptyString end.

Definition query_ok (q : option string) : Prop :=
  match q with
  | Some x => x <> EmptyString /\ free_of ["#"; "010"]%char x = true
  | None => True
  end.


(** The query items of a statement: none, or a non-empty list of
    well-formed pairs. *)
Definition query_items_ok (qitems : option (list (string * string))) : Prop :=
  match qitems with
  | Some l => l <> [] /\ forallb query_item l = true
  | None => True
  end.

Definition set_query (qitems : option (list (string * string))) : dict :=
  match qitems with
  | Some l => set_all l []
  | None => []
  end.

From Stdlib Require Import Permutation.

(** ** Predicates of the statements about the resolver *)

(** The attribute agrees with the trimmed field of the library's info it
    names. *)
Definition info_matches (defs : definitions) (info : CK_INFO)
  (item : string * string) : bool :=
  match CK_INFO_translation defs (fst item) with
  | Some f => String.eqb (snd item) (Py.strip (f info))
  | None => true
  end.

(** The attribute names a slot or token field and its value has a space at
    one end. *)
Definition untrimmed (defs : definitions) (item : string * string) : bool :=
  recognized defs item && negb (String.eqb (Py.strip (snd item)) (snd item)).

(** [gen_operations(self)]: the pairs it yields, in turn. *)
Definition gen_operations (self : PKCS11URI) : list (Z * string) :=
  _operations self.

(** The outcome leaves a session open. *)
Definition leaves_open (r : result (PKCS11URI * option Session)) : bool :=
  match r with
  | Return (_, Some _) => true
  | Return (_, None) => false
  | Raise e => raised_at_login e
  end.

(** The first character of a text, when it is no space. *)
Definition starts_black (s : string) : Prop :=
  match s with
  | EmptyString => True
  | String c _ => Py.isspace c = false
  end.

(** ** Predicates of the statements about the object search *)

Definition is_type (item : string * string) : bool :=
  String.eqb (fst item) "type".

(** The locator with every [type] set to [private]. *)
Definition force_private (location : dict) : dict :=
  map (fun item => if is_type item then (fst item, "private") else item)
      location.

(** The attribute is one the object search uses. *)
Definition object_attribute (item : string * string) : bool :=
  String.eqb (fst item) "object" || String.eqb (fst item) "id"
  || String.eqb (fst item) "type".


(** ** [to_biginteger_bytes] and the comparison of [PKCS11KeyUsage] *)

(** The exceptions of the interpreter that the functions below raise, beside
    those of [exn]. *)
Inductive py_exn : Type :=
| Repo (e : exn)
| OverflowError
| IndexError.

Inductive outcome (A : Type) : Type :=
| Done (a : A)
| Fails (e : py_exn).
Arguments Done {A} a.
Arguments Fails {A} e.

(** [int.bit_length]: the bits of the absolute value. *)
Definition bit_length (n : Z) : Z :=
  if n =? 0 then 0 else Z.log2 (Z.abs n) + 1.

(** The [length] bytes of [v], most significant first. *)
Fixpoint big_endian (length : nat) (v : Z) : list Z :=
  match length with
  | O => []
  | S n => (v / 256 ^ Z.of_nat n) mod 256 :: big_endian n v
  end.

(** [v.to_bytes(length, byteorder="big")]: a negative [v] and a [v] that
    does not fit are an [OverflowError]. *)
Definition to_bytes (v length : Z) : outcome (list Z) :=
  if v <? 0 then Fails OverflowError
  else if 256 ^ length <=? v then Fails OverflowError
  else Done (big_endian (Z.to_nat length) v).

(** [to_biginteger_bytes(value)] *)
Definition to_biginteger_bytes (value : Z) : outcome (list Z) :=
  let bit_length := bit_length value + 7 in
  to_bytes value (bit_length / 8).

(** [int.from_bytes(bs, byteorder="big")] *)
Definition from_bytes (bs : list Z) : Z :=
  fold_left (fun acc b => acc * 256 + b) bs 0.

Definition OperationTypes_eqb (a b : OperationTypes) : bool :=
  match a, b with
  | CRYPT, CRYPT | SIGN, SIGN | WRAP, WRAP | DERIVE, DERIVE
  | RECOVER, RECOVER => true
  | _, _ => false
  end.

(** The items of [_usage], in the order [__init__] stores them. *)
Definition usage_items (u : PKCS11KeyUsage)
  : list (OperationTypes * option bool) :=
  [(CRYPT, usage_crypt u); (SIGN, usage_sign u); (WRAP, usage_wrap u);
   (DERIVE, usage_derive u); (RECOVER, usage_recover u)].

Fixpoint usage_lookup (k : OperationTypes)
  (d : list (OperationTypes * option bool)) : option (option bool) :=
  match d with
  | [] => None
  | (k', v) :: r => if OperationTypes_eqb k' k then Some v else usage_lookup k r
  end.

(** [a != b] for values that are [True], [False] or [None]. *)
Definition value_ne (a b : option bool) : bool :=
  match a, b with
  | Some x, Some y => negb (Bool.eqb x y)
  | None, None => false
  | _, _ => true
  end.

(** [PKCS11KeyUsage.__eq__(self, value)] for a [value] that is a
    [PKCS11KeyUsage]. *)
Definition PKCS11KeyUsage_eq (self value : PKCS11KeyUsage) : bool :=
  fold_left
    (fun ret kv =>
       match usage_lookup (fst kv) (usage_items self) with
       | Some x => if value_ne (snd kv) x then false else ret
       | None => false
       end)
    (usage_items value) true.

(** [PKCS11KeyUsageAll()] and [PKCS11KeyUsageAllNoDerive()] *)
Definition PKCS11KeyUsageAll : PKCS11KeyUsage :=
  PKCS11KeyUsage_init (Some true) (Some true) (Some true) (Some true)
                      (Some (Some true)).

Definition PKCS11KeyUsageAllNoDerive : PKCS11KeyUsage :=
  PKCS11KeyUsage_init (Some true) (Some true) (Some true) (Some true)
                      (Some (Some false)).

(** ** The sessions that take no locator: the search for the key *)

Definition CKK_RSA : Z := 0.
Definition CKK_ECDSA : Z := 3.

(** The search template of [_get_private_key] and of
    [_get_private_key_info]. *)
Definition label_template (key_label : option string) : template :=
  match key_label with
  | None => [(CKA_CLASS, AInt CKO_PRIVATE_KEY)]
  | Some l => [(CKA_CLASS, AInt CKO_PRIVATE_KEY); (CKA_LABEL, AStr l)]
  end.

(** The slots the loop of [open] visits: all of them up to and including
    the first that satisfies [p]. *)
Fixpoint up_to_match (p : Slot -> bool) (slots : list Slot) : list Slot :=
  match slots with
  | [] => []
  | sl :: r => if p sl then [sl] else sl :: up_to_match p r
  end.

(** The trimmed label of the slot's token is the label asked for. *)
Definition label_is (library : Library) (_token_label : option string)
  (sl : Slot) : bool :=
  match _token_label with
  | Some l => String.eqb (Py.strip (ti_label (getTokenInfo library sl))) l
  | None => false
  end.

Module KeySessionOpen.

Definition _key_modules (key_type : Z) : option string :=
  if key_type =? CKK_ECDSA then Some "pkcs11_cryptography_keys.keys.ec"
  else if key_type =? CKK_RSA then Some "pkcs11_cryptography_keys.keys.rsa"
  else None.

(** [_get_private_key(self, key_label)] with [self._session] given: the
    subscript [[0]] of an empty answer is an [IndexError]. *)
Definition _get_private_key (session : option Session)
  (key_label : option string) : outcome (option (string * Z * Handle)) :=
  match session with
  | Some s =>
      match findObjects s (label_template key_label) with
      | private_key :: _ =>
          Done (Some (id_of s private_key, key_type_of s private_key,
                      private_key))
      | [] => Fails IndexError
      end
  | None => Done None
  end.

(** What [open] asks of the key module: [get_key(session, keyid, pk_ref)]
    of the module named, and one [fill_operations(m, op)] per pair. *)
Record key_calls : Type := {
  kc_module : string;
  kc_keyid : string;
  kc_ref : Handle;
  kc_fills : list (Z * string)
}.

(** [PKCS11KeySession.open], whole: [None] when no slot is chosen or the
    key type has no module. *)
Definition open (load : option string -> Library)
  (self : KeySession.PKCS11KeySession) (w : World)
  : World * outcome (option key_calls) :=
  let library := load (Some (KeySession._pksc11_lib self)) in
  match KeySession.open load self w with
  | (w', Raise e) => (w', Fails (Repo e))
  | (w', Return None) => (w', Done None)
  | (w', Return (Some (slot, session))) =>
      match _get_private_key (Some session) (KeySession._key_label self) with
      | Fails e => (w', Fails e)
      | Done None =>
          (w', Fails (Repo (TypeError "cannot unpack non-iterable NoneType object")))
      | Done (Some (keyid, key_type, pk_ref)) =>
          match _key_modules key_type with
          | Some module_name =>
              (w', Done (Some {| kc_module := module_name;
                                 kc_keyid := keyid;
                                 kc_ref := pk_ref;
                                 kc_fills := read_operations library slot |}))
          | None => (w', Done None)
          end
      end
  end.

End KeySessionOpen.

Module AdminSessionOpen.

(** [_get_private_key_info(self, key_label)] *)
Definition _get_private_key_info (session : option Session)
  (key_label : option string) : option string * option string :=
  match session with
  | Some s =>
      match findObjects s (label_template key_label) with
      | private_key :: _ =>
          (Some (id_of s private_key), Some (label_of s private_key))
      | [] => (None, None)
      end
  | None => (None, None)
  end.

(** The arguments [keyid] and [label] of [PKCS11TokenAdmin(...)]. *)
Record token_admin : Type := {
  ta_keyid : option string;
  ta_label : string
}.

(** Lines 101-119: the id and the label the token gives, or the ones to
    fall back on.  (With a key label and no key id the value of
    [self._key_label.encode()] is dropped and [keyid] stays [None].) *)
Definition key_ident (self : AdminSession.PKCS11AdminSession)
  (pk_info : option string * option string) : token_admin :=
  let '(keyid, label) := pk_info in
  let keyid :=
    match keyid with
    | Some k => Some k
    | None =>
        match AdminSession._key_id self with
        | None =>
            match AdminSession._key_label self with
            | None => Some (String "001" EmptyString)
            | Some _ => None
            end
        | Some k => Some k
        end
    end in
  let label :=
    match label with
    | Some l => l
    | None =>
        match AdminSession._key_label self with
        | None => "default"
        | Some l => l
        end
    end in
  {| ta_keyid := keyid; ta_label := label |}.

(** [PKCS11AdminSession.open], whole. *)
Definition open (load : option string -> Library)
  (self : AdminSession.PKCS11AdminSession) (w : World)
  : World * result (option token_admin) :=
  match AdminSession.open load self w with
  | (w', Raise e) => (w', Raise e)
  | (w', Return None) => (w', Return None)
  | (w', Return (Some (slot, session))) =>
      let pk_info :=
        _get_private_key_info (Some session) (AdminSession._key_label self) in
      (w', Return (Some (key_ident self pk_info)))
  end.

End AdminSessionOpen.

(** Sessions on the reference device. *)
Definition key_session_B : KeySession.PKCS11KeySession := {|
  KeySession._pksc11_lib := "/usr/lib/mock.so";
  KeySession._token_label := Some "B";
  KeySession._pin := "1234";
  KeySession._key_label := Some "signing"
|}.

Definition key_session_wrong_pin : KeySession.PKCS11KeySession := {|
  KeySession._pksc11_lib := "/usr/lib/mock.so";
  KeySession._token_label := Some "A";
  KeySession._pin := "0000";
  KeySession._key_label := None
|}.


(** ** The parser *)

Lemma length_drop (n : nat) (s : string) :
  String.length (Py.drop n s) = (String.length s - n)%nat.
Proof.
  revert s; induction n as [|n IH]; intros [|c r]; simpl; auto.
Qed.

Lemma find_nonneg_nonempty (c : ascii) (s : string) :
  0 <= Py.find c s -> (0 < String.length s)%nat.
Proof.
  destruct s; simpl; [lia | intros _; lia].
Qed.

(** A further turn works on a strictly shorter text. *)
Lemma pair_turn_again (rest rest' : string) (d d' : dict) :
  pair_turn rest d = Again rest' d' ->
  (String.length rest' < String.length rest)%nat.
Proof.
  unfold pair_turn.
  destruct ((0 <? Py.find ";" rest) && (Py.find ";" rest <? Py.find "=" rest));
    [discriminate|].
  destruct (Py.find ";" rest <? 0) eqn:Ha; [discriminate|].
  intros H; injection H as <- _.
  apply Z.ltb_ge in Ha.
  pose proof (find_nonneg_nonempty _ _ Ha) as Hlen.
  unfold Py.slice_from, Py.bound, Py.len.
  rewrite length_drop.
  destruct (Py.find ";" rest + 1 <? 0) eqn:Hneg.
  - apply Z.ltb_lt in Hneg; lia.
  - lia.
Qed.

Lemma pairs_fuel_total (fuel : nat) :
  forall bad rest d,
    (String.length rest < fuel)%nat ->
    exists r, pairs_fuel fuel bad rest d = Some r.
Proof.
  induction fuel as [|fuel IH]; intros bad rest d Hlt; [lia|].
  simpl. destruct (pair_turn rest d) as [d'|rest' d'|] eqn:Ht.
  - eauto.
  - apply IH. apply pair_turn_again in Ht. lia.
  - eauto.
Qed.

(** The loops of [parse] end: [pairs] always has an outcome. *)
Lemma pairs_total (bad : string -> exn) (rest : string) (d : dict) :
  exists r, pairs bad rest d = Some r.
Proof.
  apply pairs_fuel_total. lia.
Qed.

(** [parse] always has an outcome. *)
Lemma parse_total (uri : string) : exists r, parse uri = Some r.
Proof.
  unfold parse.
  destruct (Grob.grob_match uri) as [[[g0 g1] g2]|]; [|eauto].
  destruct (Py.partition ":" g0) as [[schema sep] rest].
  destruct (String.eqb schema "pkcs11" && (0 <? Py.len (Py.strip rest)));
    [|eauto].
  destruct (pairs_total MalformedLocator rest []) as [[loc|e] ->]; [|eauto].
  destruct g1 as [q|]; [|eauto].
  destruct (Py.startswith "?" q); [|eauto].
  destruct (pairs_total MalformedQuery (Py.slice_from q 1) []) as [[qr|e] ->];
    eauto.
Qed.

(** The guard of the loop: a [;] at a position after the first and before
    the first [=] ends the loop with the exception. *)
Lemma pairs_semicolon_before_equals (bad : string -> exn) (rest : string)
  (d : dict) :
  0 < Py.find ";" rest < Py.find "=" rest ->
  pairs bad rest d = Some (Raise (bad rest)).
Proof.
  intros [Ha Hb]. unfold pairs. simpl. unfold pair_turn.
  apply Z.ltb_lt in Ha, Hb. rewrite Ha, Hb. reflexivity.
Qed.

(** C9: the locator [pkcs11:token=TokenA;object=Key%20One;id=%01%02] parses
    to the location [token -> TokenA], [object -> Key One],
    [id -> 0x01 0x02] and to the empty query; a value is decoded once only,
    so [%2541] gives [%41] and not [A]. *)
Theorem parse_round_trip :
  parse "pkcs11:token=TokenA;object=Key%20One;id=%01%02"
  = Some (Return (cls [("token", "TokenA"); ("object", "Key One");
                       ("id", byte_01_02)] []))
  /\ parse "pkcs11:id=%2541" = Some (Return (cls [("id", "%41")] [])).
Proof.
  split; vm_compute; reflexivity.
Qed.

(** C2: on [pkcs11:token=A;id] the parser raises nothing; it returns a
    locator whose location has [token -> A] and [i -> id].  The same
    happens when the [;] comes first in the text. *)
Theorem parse_bare_trailing_attribute :
  parse "pkcs11:token=A;id"
  = Some (Return (cls [("token", "A"); ("i", "id")] []))
  /\ parse "pkcs11:;x=1" = Some (Return (cls [(";x", EmptyString); ("x", "1")] [])).
Proof.
  split; vm_compute; reflexivity.
Qed.

(** ** Slot selection in [get_session] *)

Section Selection.

Variable defs : definitions.
Variable library : Library.

Lemma unrecognized_matches (sl : Slot) (items : dict) :
  existsb (recognized defs) items = false -> forallb (attr_matches defs library sl) items = true.
Proof.
  induction items as [|[tag v] r IH]; simpl; [reflexivity|].
  intros H. apply orb_false_elim in H as [Hr Hrest].
  rewrite (IH Hrest), andb_true_r.
  unfold recognized in Hr; unfold attr_matches; simpl in *.
  destruct (CK_SLOT_INFO_translation defs tag);
    destruct (CK_TOKEN_INFO_translation defs tag);
    try discriminate; reflexivity.
Qed.

(** The inner loop: with a recognized attribute it finds, and keeps the slot
    exactly when every attribute agrees; without one it changes nothing. *)
Lemma match_tags_spec (sl : Slot) (items : dict) :
  forall found slot,
    match_tags defs sl (getSlotInfo library sl) (getTokenInfo library sl)
               items found slot
    = if existsb (recognized defs) items
      then (true, if forallb (attr_matches defs library sl) items then Some sl else None)
      else (found, slot).
Proof.
  induction items as [|[tag v] r IH]; intros found slot; simpl;
    [reflexivity|].
  unfold recognized at 1, attr_matches at 1; simpl.
  destruct (CK_SLOT_INFO_translation defs tag) as [f|];
    destruct (CK_TOKEN_INFO_translation defs tag) as [g|]; simpl;
    repeat match goal with
           | |- context [String.eqb v ?x] => destruct (String.eqb v x); simpl
           end;
    try reflexivity;
    rewrite IH;
    destruct (existsb (recognized defs) r) eqn:Hr; try reflexivity;
    rewrite (unrecognized_matches sl r Hr); reflexivity.
Qed.

(** The loop over the slots, when the locator has a recognized attribute:
    it stops at the first slot that matches. *)
Lemma slot_loop_find (location : dict) (slots : list Slot) :
  existsb (recognized defs) location = true ->
  forall lr,
    fst (slot_loop defs library location slots None lr)
    = List.find (slot_matches defs library location) slots.
Proof.
  intros Hrec. induction slots as [|sl r IH]; intros lr; simpl;
    [reflexivity|].
  rewrite match_tags_spec, Hrec. unfold slot_matches at 1.
  destruct (forallb (attr_matches defs library sl) location); simpl; [reflexivity|].
  apply IH.
Qed.

(** Without a recognized attribute no slot is chosen. *)
Lemma slot_loop_none (location : dict) (slots : list Slot) :
  existsb (recognized defs) location = false ->
  forall lr, fst (slot_loop defs library location slots None lr) = None.
Proof.
  intros Hrec. induction slots as [|sl r IH]; intros lr; simpl;
    [reflexivity|].
  rewrite match_tags_spec, Hrec. apply IH.
Qed.

(** The slot chosen splits the enumeration; [login_required] gathers the
    flags of all tokens up to it. *)
Lemma slot_loop_login (location : dict) (slots : list Slot) :
  forall lr sl lr',
    slot_loop defs library location slots None lr = (Some sl, lr') ->
    exists pre post,
      slots = (pre ++ sl :: post)%list
      /\ forallb (fun s => negb (slot_matches defs library location s)) pre = true
      /\ slot_matches defs library location sl = true
      /\ lr' = lr || existsb (token_requires_login library) (pre ++ [sl])%list.
Proof.
  induction slots as [|s r IH]; intros lr sl lr' H; simpl in H;
    [discriminate|].
  rewrite match_tags_spec in H.
  destruct (existsb (recognized defs) location) eqn:Hrec.
  - destruct (forallb (attr_matches defs library s) location) eqn:Hm.
    + injection H as <- <-. exists [], r. simpl.
      unfold token_requires_login, slot_matches. rewrite Hm.
      repeat split.
      destruct (requires_login (getTokenInfo library s)), lr; reflexivity.
    + apply IH in H as (pre & post & -> & Hpre & Hsl & ->).
      exists (s :: pre), post. simpl.
      unfold slot_matches at 1. rewrite Hm. simpl.
      repeat split; auto.
      unfold token_requires_login at 2.
      destruct (requires_login (getTokenInfo library s)), lr; reflexivity.
  - pose proof (slot_loop_none location r Hrec
                  (if requires_login (getTokenInfo library s)
                   then true else lr)) as Hn.
    rewrite H in Hn. discriminate.
Qed.

End Selection.

(** C5: when the locator has an attribute that names a slot or token field,
    the slot [get_session] chooses is the first of the enumeration for which
    every such attribute equals the trimmed field; so with two slots of
    which only the second has the token label asked for, the second is
    chosen, in either order of enumeration. *)
Theorem get_session_first_match (defs : definitions) (library : Library)
  (location : dict) :
  existsb (recognized defs) location = true ->
  fst (select_slot defs library location)
  = List.find (slot_matches defs library location) (getSlotList library)
  /\ (forall s1 s2 label,
        location = [("token", label)] ->
        CK_SLOT_INFO_translation defs "token" = None ->
        CK_TOKEN_INFO_translation defs "token" = Some ti_label ->
        Py.strip (ti_label (getTokenInfo library s1)) <> label ->
        Py.strip (ti_label (getTokenInfo library s2)) = label ->
        getSlotList library = [s1; s2] \/ getSlotList library = [s2; s1] ->
        fst (select_slot defs library location) = Some s2).
Proof.
  intros Hrec.
  assert (Hfind : fst (select_slot defs library location)
                  = List.find (slot_matches defs library location)
                              (getSlotList library))
    by (apply slot_loop_find; exact Hrec).
  split; [exact Hfind|].
  intros s1 s2 label -> Hs Ht H1 H2 Hslots.
  rewrite Hfind.
  assert (M1 : slot_matches defs library [("token", label)] s1 = false).
  { unfold slot_matches, attr_matches; simpl. rewrite Hs, Ht; simpl.
    rewrite andb_true_r. apply String.eqb_neq. congruence. }
  assert (M2 : slot_matches defs library [("token", label)] s2 = true).
  { unfold slot_matches, attr_matches; simpl. rewrite Hs, Ht; simpl.
    rewrite andb_true_r. apply String.eqb_eq. congruence. }
  destruct Hslots as [-> | ->]; cbn [List.find]; rewrite ?M1, M2; reflexivity.
Qed.

Lemma get_session_first_match_witness :
  fst (select_slot spec_definitions (Mock.load None) [("token", "B")])
  = Some 2.
Proof.
  destruct (get_session_first_match spec_definitions (Mock.load None)
              [("token", "B")] eq_refl) as [_ H].
  apply (H 1 2 "B" eq_refl eq_refl eq_refl).
  - vm_compute. discriminate.
  - reflexivity.
  - left. reflexivity.
Defined.

(** ** Login and release of the session in [get_session] *)

Section Login.

Variable defs : definitions.
Variable load : option string -> Library.
Variable input : string -> option string.

Lemma login_calls_nonempty (self : PKCS11URI) (norm_user : bool) :
  login_calls input self norm_user <> [].
Proof.
  unfold login_calls. destruct (dict_get "pin-value" (_query self));
    discriminate.
Qed.

(** The calls [get_session] makes once a slot is chosen and the session's
    info agrees with the locator. *)
Lemma get_session_calls (self : PKCS11URI) (norm_user : bool) (w : World)
  (sl : Slot) (lr : bool) :
  let library := load (dict_get "module-path" (_query self)) in
  check_info defs (getInfo library) (_location self) = Return tt ->
  select_slot defs library (_location self) = (Some sl, lr) ->
  check_session defs (getSessionInfo (openSession library sl rw_serial))
                (_location self) = None ->
  calls (fst (get_session defs load input self norm_user w))
  = (calls w ++ EvOpen sl
       :: (if lr then login_calls input self norm_user else []))%list.
Proof.
  intros library Hinfo Hsel Hses. unfold get_session.
  fold library. rewrite Hinfo, Hsel. fold rw_serial. rewrite Hses.
  unfold login_calls.
  destruct lr; [|reflexivity].
  destruct (dict_get "pin-value" (_query self)) as [p|].
  - destruct (login_ok _ p _); simpl; rewrite <- app_assoc; reflexivity.
  - destruct (input (prompt norm_user)) as [p|]; simpl.
    + destruct (login_ok _ p _); simpl; rewrite <- !app_assoc; reflexivity.
    + rewrite <- app_assoc; reflexivity.
Qed.

(** The sessions left open by a call that raises: the session opened stays
    open when the exception comes from the login, and is closed (or was
    never opened) otherwise. *)
Lemma get_session_raise_open_count (self : PKCS11URI) (norm_user : bool)
  (w : World) (e : exn) :
  snd (get_session defs load input self norm_user w) = Raise e ->
  open_count (fst (get_session defs load input self norm_user w))
  = if raised_at_login e then S (open_count w) else open_count w.
Proof.
  unfold get_session.
  set (library := load (dict_get "module-path" (_query self))).
  assert (Hinfo : forall items,
             check_info defs (getInfo library) items <> Raise LoginFailure
             /\ check_info defs (getInfo library) items
                <> Raise LoginRequiredNoPin).
  { intros items. induction items as [|[t v] r IH]; simpl;
      [split; discriminate|].
    destruct (CK_INFO_translation defs t); [|exact IH].
    destruct (negb _); [split; discriminate|exact IH]. }
  destruct (check_info defs (getInfo library) (_location self)) as [[]|e0]
    eqn:Hci.
  - destruct (select_slot defs library (_location self)) as [[sl|] lr];
      [|discriminate].
    destruct (check_session _ _ _) as [tag|].
    + simpl. intros H; injection H as <-. reflexivity.
    + destruct lr; [|discriminate].
      destruct (dict_get "pin-value" (_query self)) as [p|].
      * destruct (login_ok _ p _); simpl; [discriminate|].
        intros H; injection H as <-. reflexivity.
      * destruct (input (prompt norm_user)) as [p|]; simpl.
        -- destruct (login_ok _ p _); simpl; [discriminate|].
           intros H; injection H as <-. reflexivity.
        -- intros H; injection H as <-. reflexivity.
  - simpl. intros H; injection H as <-.
    destruct (Hinfo (_location self)) as [H1 H2]. rewrite Hci in H1, H2.
    destruct e0; try reflexivity; congruence.
Qed.

(** A session whose info contradicts the locator is closed before the
    exception leaves [get_session]. *)
Lemma get_session_mismatch_closes (self : PKCS11URI) (norm_user : bool)
  (w : World) (tag : string) :
  snd (get_session defs load input self norm_user w)
  = Raise (SessionAttributeMismatch tag) ->
  open_count (fst (get_session defs load input self norm_user w))
  = open_count w.
Proof.
  intros H. rewrite (get_session_raise_open_count _ _ _ _ H). reflexivity.
Qed.

End Login.

(** C10: [login_required] is gathered over the slots enumerated up to the
    one chosen: it holds exactly when one of their tokens has the flag, the
    PIN is asked for and the login made exactly then, and there is an
    enumeration in which the login is made although the token of the slot
    chosen does not ask for it. *)
Theorem login_required_accumulates (defs : definitions)
  (load : option string -> Library) (input : string -> option string)
  (self : PKCS11URI) (norm_user : bool) (w : World) (sl : Slot) (lr : bool) :
  let library := load (dict_get "module-path" (_query self)) in
  check_info defs (getInfo library) (_location self) = Return tt ->
  select_slot defs library (_location self) = (Some sl, lr) ->
  check_session defs (getSessionInfo (openSession library sl rw_serial))
                (_location self) = None ->
  (exists pre post,
      getSlotList library = (pre ++ sl :: post)%list
      /\ forallb (fun s => negb (slot_matches defs library (_location self) s))
                 pre = true
      /\ lr = existsb (token_requires_login library) (pre ++ [sl])%list)
  /\ calls (fst (get_session defs load input self norm_user w))
     = (calls w ++ EvOpen sl
          :: (if lr then login_calls input self norm_user else []))%list
  /\ login_calls input self norm_user <> []
  /\ (exists defs' load' input' self',
        let library' := load' (dict_get "module-path" (_query self')) in
        select_slot defs' library' (_location self') = (Some 2, true)
        /\ token_requires_login library' 2 = false
        /\ getSlotList library' = [1; 2]
        /\ token_requires_login library' 1 = true
        /\ calls (fst (get_session defs' load' input' self' true world0))
           = [EvOpen 2; EvInput "Please enter PIN:"; EvLogin "1234" CKU_USER]).
Proof.
  intros library Hinfo Hsel Hses.
  split; [|split; [|split]].
  - unfold select_slot in Hsel.
    apply slot_loop_login in Hsel as (pre & post & Hs & Hpre & _ & Hlr).
    exists pre, post. auto.
  - apply get_session_calls; assumption.
  - apply login_calls_nonempty.
  - exists spec_definitions, Mock.load, Mock.typed_1234,
      (cls [("token", "B")] []).
    vm_compute. repeat split; reflexivity.
Qed.

Lemma login_required_accumulates_witness :
  calls (fst (get_session spec_definitions Mock.load Mock.typed_1234
                (cls [("token", "B")] []) true world0))
  = ([] ++ EvOpen 2
        :: login_calls Mock.typed_1234 (cls [("token", "B")] []) true)%list.
Proof.
  apply (login_required_accumulates spec_definitions Mock.load Mock.typed_1234
           (cls [("token", "B")] []) true world0 2 true);
    vm_compute; reflexivity.
Defined.

(** C1: a session opened and then refused at the login stays open.  With
    the single token [A] asking for a login, no [pin-value] and no PIN from
    the prompt, [get_session] raises [LoginRequiredNoPin] and one session is
    open afterwards; with a [pin-value] the token refuses, it raises
    [LoginFailure] and one session is open afterwards. *)
Theorem get_session_leaves_session_open :
  get_session spec_definitions Mock.load_one Mock.no_input
              (cls [("token", "A")] []) true world0
  = (mkWorld 1 [EvOpen 1; EvInput "Please enter PIN:"],
     Raise LoginRequiredNoPin)
  /\ get_session spec_definitions Mock.load_one Mock.no_input
                 (cls [("token", "A")] [("pin-value", "0000")]) true world0
     = (mkWorld 1 [EvOpen 1; EvLogin "0000" CKU_USER], Raise LoginFailure).
Proof.
  split; vm_compute; reflexivity.
Qed.

(** ** Object search *)

Section Search.

Variable defs : definitions.

Hypothesis private_is_private_key :
  PKCS11_type_translation defs "private" = Some CKO_PRIVATE_KEY.

Lemma class_forced_append (tpl : template) (key : Z)
  (val : option attr_value) :
  class_forced tpl ->
  (key = CKA_CLASS -> val = Some (AInt CKO_PRIVATE_KEY)) ->
  class_forced (append_val tpl key val).
Proof.
  intros Hf Hk x. destruct val as [y|]; simpl; [|apply Hf].
  rewrite in_app_iff. intros [H|[H|[]]]; [apply Hf; exact H|].
  injection H as Hkey <-. specialize (Hk Hkey). congruence.
Qed.

Lemma has_class_append (tpl : template) (key : Z) (val : option attr_value) :
  has_class tpl -> has_class (append_val tpl key val).
Proof.
  unfold has_class. destruct val; simpl; auto.
  rewrite in_app_iff. auto.
Qed.

Lemma type_value_private :
  __get_type_value defs "private" = Some (AInt CKO_PRIVATE_KEY).
Proof.
  unfold __get_type_value. rewrite private_is_private_key. reflexivity.
Qed.

(** The loop keeps the class entries forced, and has put one in when it
    ends with [found] set. *)
Lemma private_key_loop_class (items : dict) :
  forall st,
    class_forced (pk_template st) ->
    (pk_found st = true -> has_class (pk_template st)) ->
    class_forced (pk_template (private_key_loop defs items st))
    /\ (pk_found (private_key_loop defs items st) = true ->
        has_class (pk_template (private_key_loop defs items st))).
Proof.
  induction items as [|[tag v] r IH]; intros st Hf Hc; simpl; [auto|].
  unfold _PKCS11_key_translation.
  destruct (String.eqb tag "object") eqn:Eo.
  { apply String.eqb_eq in Eo; subst tag; simpl. apply IH; simpl.
    - apply (class_forced_append _ CKA_LABEL (Some (AStr v)));
        [exact Hf | discriminate].
    - intros H. apply (has_class_append _ CKA_LABEL (Some (AStr v))); auto. }
  destruct (String.eqb tag "id") eqn:Ei.
  { apply String.eqb_eq in Ei; subst tag; simpl. apply IH; simpl.
    - apply (class_forced_append _ CKA_ID (Some (ABytes v)));
        [exact Hf | discriminate].
    - intros H. apply (has_class_append _ CKA_ID (Some (ABytes v))); auto. }
  destruct (String.eqb tag "type") eqn:Et; [|apply IH; assumption].
  apply IH; cbn [pk_template pk_found].
  - apply class_forced_append; [exact Hf | intros _; apply type_value_private].
  - intros _. rewrite type_value_private. unfold has_class; simpl.
    rewrite in_app_iff; simpl; auto.
Qed.

Lemma dict_get_absent (k : string) (items : dict) :
  ~ In k (map fst items) -> dict_get k items = None.
Proof.
  induction items as [|[k' v] r IH]; simpl; [reflexivity|].
  intros H. destruct (String.eqb k' k) eqn:E.
  - apply String.eqb_eq in E. tauto.
  - apply IH. tauto.
Qed.

(** Use the induction hypothesis at the variables the loop goes on with. *)
Ltac use_IH IH :=
  match goal with
  | |- context [private_key_loop _ _ ?st'] =>
      let Hk := fresh "Hk" in
      let Hl := fresh "Hl" in
      destruct (IH st') as [Hk Hl]; rewrite Hk, Hl; simpl
  end.

(** The variables [keyid] and [label] after the loop are the locator's [id]
    and [object]. *)
Lemma private_key_loop_vars (items : dict) :
  NoDup (map fst items) ->
  forall st,
    pk_keyid (private_key_loop defs items st)
    = match dict_get "id" items with
      | Some v => Some (ABytes v)
      | None => pk_keyid st
      end
    /\ pk_label (private_key_loop defs items st)
       = match dict_get "object" items with
         | Some v => Some (AStr v)
         | None => pk_label st
         end.
Proof.
  induction items as [|[tag v] r IH]; intros Hnd st; simpl; [auto|].
  simpl in Hnd. apply NoDup_cons_iff in Hnd as [Hnotin Hnd].
  specialize (IH Hnd).
  unfold _PKCS11_key_translation.
  destruct (String.eqb tag "object") eqn:Eo.
  { apply String.eqb_eq in Eo; subst tag; simpl.
    use_IH IH. rewrite (dict_get_absent "object" r Hnotin). auto. }
  destruct (String.eqb tag "id") eqn:Ei.
  { apply String.eqb_eq in Ei; subst tag; simpl.
    use_IH IH. rewrite (dict_get_absent "id" r Hnotin). auto. }
  destruct (String.eqb tag "type") eqn:Et.
  - use_IH IH. auto.
  - apply IH.
Qed.

End Search.

(** C6: the template [get_private_key] searches with has the entry
    [(CKA_CLASS, CKO_PRIVATE_KEY)] whatever the locator is, and has no class
    entry with another value: a [type] of the locator is replaced, a missing
    one is added. *)
Theorem private_key_template_class (defs : definitions) (self : PKCS11URI) :
  PKCS11_type_translation defs "private" = Some CKO_PRIVATE_KEY ->
  In (CKA_CLASS, AInt CKO_PRIVATE_KEY)
     (pk_template (private_key_template defs self))
  /\ (forall x,
        In (CKA_CLASS, x) (pk_template (private_key_template defs self)) ->
        x = AInt CKO_PRIVATE_KEY).
Proof.
  intros Hp. unfold private_key_template.
  destruct (private_key_loop_class defs Hp (_location self)
              (mkVars [] false None None)) as [Hf Hc].
  { intros x []. }
  { discriminate. }
  destruct (pk_found (private_key_loop defs (_location self) _)) eqn:Efound;
    simpl.
  - split; [apply Hc; reflexivity | exact Hf].
  - rewrite (type_value_private defs Hp). simpl. split.
    + rewrite in_app_iff; simpl; auto.
    + intros x. rewrite in_app_iff. intros [H|[H|[]]]; [apply Hf; exact H|].
      congruence.
Qed.

Lemma private_key_template_class_witness :
  In (CKA_CLASS, AInt CKO_PRIVATE_KEY)
     (pk_template (private_key_template spec_definitions
                     (cls [("object", "k"); ("type", "public")] []))).
Proof.
  apply (private_key_template_class spec_definitions
           (cls [("object", "k"); ("type", "public")] []) eq_refl).
Defined.

(** C3 as amended: when the search of [get_private_key] finds nothing, the
    key type and the handle returned are [None], the id returned is the
    locator's [id] as bytes and the label its [object], each [None] when the
    locator has none; all four are [None] exactly when the locator has
    neither. *)
Theorem get_private_key_no_match (defs : definitions) (self : PKCS11URI)
  (s : Session) :
  NoDup (map fst (_location self)) ->
  findObjects s (pk_template (private_key_template defs self)) = [] ->
  get_private_key defs self (Some s)
  = ((option_map ABytes (dict_get "id" (_location self)),
      option_map AStr (dict_get "object" (_location self)), None, None), [])
  /\ (fst (get_private_key defs self (Some s)) = (None, None, None, None)
      <-> dict_get "id" (_location self) = None
          /\ dict_get "object" (_location self) = None).
Proof.
  intros Hnd Hnone.
  assert (Hvars :
            pk_keyid (private_key_template defs self)
            = option_map ABytes (dict_get "id" (_location self))
            /\ pk_label (private_key_template defs self)
               = option_map AStr (dict_get "object" (_location self))).
  { unfold private_key_template.
    destruct (private_key_loop_vars defs (_location self) Hnd
                (mkVars [] false None None)) as [Hk Hl].
    destruct (pk_found _); simpl; rewrite Hk, Hl;
      destruct (dict_get "id" _), (dict_get "object" _); auto. }
  destruct Hvars as [Hk Hl].
  assert (Heq : get_private_key defs self (Some s)
                = ((option_map ABytes (dict_get "id" (_location self)),
                    option_map AStr (dict_get "object" (_location self)),
                    None, None), [])).
  { unfold get_private_key. rewrite Hnone, Hk, Hl.
    destruct (0 <? _); reflexivity. }
  split; [exact Heq|].
  rewrite Heq; simpl.
  destruct (dict_get "id" _), (dict_get "object" _); simpl;
    split; try (intros [? ?]); try intros ?; try discriminate; auto.
Qed.

Lemma get_private_key_no_match_witness :
  get_private_key spec_definitions (cls [("object", "k")] [])
                  (Some (Mock.session "1234" []))
  = ((None, Some (AStr "k"), None, None), []).
Proof.
  apply (get_private_key_no_match spec_definitions
           (cls [("object", "k")] []) (Mock.session "1234" [])).
  - simpl. repeat constructor. simpl. tauto.
  - reflexivity.
Defined.

(** C3 as stated does not hold: with the locator [object=k] and a token that
    holds no object the search finds nothing and the label returned is [k]. *)
Lemma get_private_key_no_match_counterexample :
  findObjects (Mock.session "1234" [])
    (pk_template (private_key_template spec_definitions
                    (cls [("object", "k")] []))) = []
  /\ fst (get_private_key spec_definitions (cls [("object", "k")] [])
            (Some (Mock.session "1234" [])))
     <> (None, None, None, None).
Proof.
  split; [reflexivity | vm_compute; discriminate].
Qed.




(** ** The sessions that take no locator: which slot is opened *)

(** Without a token label the loop runs to the end of the enumeration and
    keeps the slot it saw last. *)
Lemma label_loop_no_label (library : Library) (slots : list Slot) :
  forall slot lr,
    fst (label_loop library None slots slot lr)
    = match slots with
      | [] => slot
      | _ => Some (last slots 0)
      end.
Proof.
  induction slots as [|sl r IH]; intros slot lr; [reflexivity|].
  cbn [label_loop]. rewrite IH. destruct r; reflexivity.
Qed.

Lemma label_loop_no_label_last (library : Library) (slots : list Slot)
  (lr : bool) :
  slots <> [] ->
  exists lr',
    label_loop library None slots None lr = (Some (last slots 0), lr').
Proof.
  intros Hne.
  pose proof (label_loop_no_label library slots None lr) as H.
  destruct (label_loop library None slots None lr) as [slot lr'].
  exists lr'. simpl in H. destruct slots; [contradiction|]. congruence.
Qed.

(** C4 as amended: without a token label, [PKCS11KeySession.open] and
    [PKCS11AdminSession.open] open the session on the last slot of a
    non-empty enumeration. *)
Theorem open_without_label_last_slot (load : option string -> Library)
  (ks : KeySession.PKCS11KeySession) (adm : AdminSession.PKCS11AdminSession)
  (w : World) :
  (KeySession._token_label ks = None ->
   getSlotList (load (Some (KeySession._pksc11_lib ks))) <> [] ->
   exists more,
     calls (fst (KeySession.open load ks w))
     = (calls w
        ++ EvOpen (last (getSlotList
                           (load (Some (KeySession._pksc11_lib ks)))) 0)
        :: more)%list)
  /\ (AdminSession._token_label adm = None ->
      getSlotList (load (Some (AdminSession._pksc11_lib adm))) <> [] ->
      exists more,
        calls (fst (AdminSession.open load adm w))
        = (calls w
           ++ EvOpen (last (getSlotList
                              (load (Some (AdminSession._pksc11_lib adm)))) 0)
           :: more)%list).
Proof.
  split; intros Hlabel Hne.
  - unfold KeySession.open. rewrite Hlabel.
    destruct (label_loop_no_label_last
                (load (Some (KeySession._pksc11_lib ks))) _ false Hne)
      as [lr ->].
    destruct lr; [|exists []; reflexivity].
    exists [EvLogin (KeySession._pin ks) CKU_USER].
    destruct (login_ok _ _ _); simpl; rewrite <- app_assoc; reflexivity.
  - unfold AdminSession.open. rewrite Hlabel.
    destruct (label_loop_no_label_last
                (load (Some (AdminSession._pksc11_lib adm))) _
                (AdminSession._login_required adm) Hne) as [lr ->].
    destruct lr; [|exists []; reflexivity].
    exists [EvLogin (AdminSession._pin adm)
              (if AdminSession._norm_user adm then CKU_USER else CKU_SO)].
    destruct (login_ok _ _ _); simpl; rewrite <- app_assoc; reflexivity.
Qed.

Lemma open_without_label_last_slot_witness :
  (exists more,
      calls (fst (KeySession.open Mock.load key_session_no_label world0))
      = EvOpen 2 :: more)
  /\ (exists more,
         calls (fst (AdminSession.open Mock.load admin_session_no_label
                       world0))
         = EvOpen 2 :: more).
Proof.
  destruct (open_without_label_last_slot Mock.load key_session_no_label
              admin_session_no_label world0) as [Hk Ha].
  split.
  - apply Hk; [reflexivity | discriminate].
  - apply Ha; [reflexivity | discriminate].
Defined.

(** C4 as stated does not hold: with the slots 1 and 2 enumerated in this
    order and no token label, both [open] open the session on slot 2. *)
Lemma open_without_label_counterexample :
  hd_error (getSlotList (Mock.load (Some "/usr/lib/mock.so"))) = Some 1
  /\ calls (fst (KeySession.open Mock.load key_session_no_label world0))
     = [EvOpen 2; EvLogin "1234" CKU_USER]
  /\ calls (fst (AdminSession.open Mock.load admin_session_no_label world0))
     = [EvOpen 2; EvLogin "1234" CKU_USER].
Proof.
  repeat split; vm_compute; reflexivity.
Qed.

(** ** Key usage *)

(** C8: for a private key whose bits read decrypt true, sign false, unwrap
    true and sign-recover true, [read_key_usage_from_key] gives crypt true,
    sign false, wrap true, recover true and for derive the bit as read; for
    a public key the derive field is [None]. *)
Theorem read_key_usage_private_public (s : Session) (h : Handle) :
  (class_of s h = Some CKO_PRIVATE_KEY ->
   bit_of s h CKA_DECRYPT = Some true ->
   bit_of s h CKA_SIGN = Some false ->
   bit_of s h CKA_UNWRAP = Some true ->
   bit_of s h CKA_SIGN_RECOVER = Some true ->
   read_key_usage_from_key s h
   = Return (Some (mkUsage (Some true) (Some false) (Some true)
                           (bit_of s h CKA_DERIVE) (Some true))))
  /\ (class_of s h = Some CKO_PUBLIC_KEY ->
      exists u,
        read_key_usage_from_key s h = Return (Some u)
        /\ usage_get u DERIVE = None
        /\ usage_get u CRYPT = bit_of s h CKA_ENCRYPT
        /\ usage_get u SIGN = bit_of s h CKA_VERIFY
        /\ usage_get u WRAP = bit_of s h CKA_WRAP
        /\ usage_get u RECOVER = bit_of s h CKA_VERIFY_RECOVER).
Proof.
  split.
  - intros Hc Hd Hs Hu Hr. unfold read_key_usage_from_key. rewrite Hc.
    cbn [_key_classes Z.eqb CKO_PRIVATE_KEY Pos.eqb _key_usage map snd].
    rewrite Hd, Hs, Hu, Hr. vm_compute. reflexivity.
  - intros Hc. unfold read_key_usage_from_key. rewrite Hc.
    eexists. split; [vm_compute; reflexivity|].
    repeat split.
Qed.

Lemma read_key_usage_private_public_witness :
  read_key_usage_from_key
    (Mock.session "1234" [Mock.key1; Mock.key2; Mock.pub1]) 11
  = Return (Some (mkUsage (Some true) (Some false) (Some true) None
                          (Some true))).
Proof.
  apply (read_key_usage_private_public
           (Mock.session "1234" [Mock.key1; Mock.key2; Mock.pub1]) 11);
    reflexivity.
Defined.

(** ** More on the parser *)

Lemma has_char_app (c : ascii) (s t : string) :
  has_char c (s ++ t) = has_char c s || has_char c t.
Proof.
  induction s as [|x r IH]; simpl; [reflexivity|].
  rewrite IH, orb_assoc. reflexivity.
Qed.

Lemma free_of_app (cs : list ascii) (s t : string) :
  free_of cs (s ++ t) = free_of cs s && free_of cs t.
Proof.
  unfold free_of. induction cs as [|c r IH]; cbn [forallb]; [reflexivity|].
  rewrite IH, has_char_app, negb_orb.
  destruct (has_char c s), (has_char c t), (forallb _ r), (forallb _ r);
    reflexivity.
Qed.

Lemma free_of_nil (cs : list ascii) : free_of cs EmptyString = true.
Proof.
  unfold free_of. induction cs; simpl; auto.
Qed.

Lemma free_of_cons (cs : list ascii) (x : ascii) (s : string) :
  free_of cs (String x s)
  = forallb (fun c => negb (Ascii.eqb x c)) cs && free_of cs s.
Proof.
  unfold free_of. induction cs as [|c r IH]; cbn [forallb]; [reflexivity|].
  rewrite IH. cbn [has_char]. rewrite negb_orb.
  destruct (Ascii.eqb x c), (has_char c s), (forallb _ r), (forallb _ r);
    reflexivity.
Qed.

Lemma free_of_cons_inv (cs : list ascii) (x : ascii) (s : string) :
  free_of cs (String x s) = true ->
  (forall c, In c cs -> Ascii.eqb x c = false) /\ free_of cs s = true.
Proof.
  rewrite free_of_cons. intros H. apply andb_true_iff in H as [Hx Hs].
  split; [|exact Hs].
  intros c Hin. rewrite forallb_forall in Hx.
  apply negb_true_iff. apply Hx. exact Hin.
Qed.

Lemma free_of_In (cs : list ascii) (c : ascii) (s : string) :
  free_of cs s = true -> In c cs -> has_char c s = false.
Proof.
  unfold free_of. rewrite forallb_forall. intros H Hin.
  apply negb_true_iff. apply H. exact Hin.
Qed.

Lemma free_of_incl (cs cs' : list ascii) (s : string) :
  incl cs' cs -> free_of cs s = true -> free_of cs' s = true.
Proof.
  unfold free_of. rewrite !forallb_forall. intros Hi H c Hc.
  apply H, Hi, Hc.
Qed.

(** *** The pattern on a text made of its three segments *)

Lemma dots_greedy_end_all (s : string) :
  s <> EmptyString -> has_char "010" s = false ->
  Grob.dots_greedy_end s = Some s.
Proof.
  induction s as [|c r IH]; intros Hne Hnl; [contradiction|].
  simpl in Hnl. apply orb_false_elim in Hnl as [Hc Hr].
  simpl. unfold Grob.dot. rewrite Hc. simpl.
  destruct r as [|c' r']; [reflexivity|].
  rewrite IH; [reflexivity | discriminate | exact Hr].
Qed.

Lemma fragment_frag_text (frag : option string) :
  frag_ok frag ->
  Grob.fragment (frag_text frag) = Some (option_map (append "#") frag).
Proof.
  destruct frag as [f|]; simpl; [|reflexivity].
  intros [Hne Hnl]. unfold Grob.fragment. simpl.
  rewrite dots_greedy_end_all by assumption. reflexivity.
Qed.

Lemma fragment_other (c : ascii) (s : string) :
  Ascii.eqb c "#" = false -> Ascii.eqb c "010" = false ->
  Grob.fragment (String c s) = None.
Proof.
  intros Hh Hn. unfold Grob.fragment. rewrite Hh. simpl.
  destruct s; [rewrite Hn|]; reflexivity.
Qed.

Lemma dots_lazy_fragment (x : string) (frag : option string) :
  x <> EmptyString -> free_of ["#"; "010"]%char x = true -> frag_ok frag ->
  Grob.dots_lazy Grob.fragment (x ++ frag_text frag)
  = Some (x, option_map (append "#") frag).
Proof.
  intros Hne Hx Hf. induction x as [|c r IH]; [contradiction|].
  apply free_of_cons_inv in Hx as [Hc Hr].
  assert (Hn : Ascii.eqb c "010" = false) by (apply Hc; simpl; auto).
  simpl. unfold Grob.dot at 1. rewrite Hn. simpl.
  destruct r as [|c' r'].
  - simpl. rewrite fragment_frag_text by assumption. reflexivity.
  - destruct (free_of_cons_inv _ _ _ Hr) as [Hc' _].
    change ((String c' r' ++ frag_text frag))
      with (String c' (r' ++ frag_text frag)).
    rewrite fragment_other by (apply Hc'; simpl; auto).
    change (String c' (r' ++ frag_text frag))
      with (String c' r' ++ frag_text frag).
    rewrite IH; [reflexivity | discriminate | exact Hr].
Qed.

Lemma query_part_texts (q frag : option string) :
  query_ok q -> frag_ok frag ->
  Grob.query_part (query_text q ++ frag_text frag)
  = Some (option_map (append "?") q, option_map (append "#") frag).
Proof.
  intros Hq Hf. destruct q as [x|]; simpl.
  - destruct Hq as [Hne Hx]. unfold Grob.query_part. simpl.
    rewrite dots_lazy_fragment by assumption. reflexivity.
  - unfold Grob.query_part.
    rewrite fragment_frag_text by assumption.
    destruct frag; reflexivity.
Qed.

Lemma query_part_other (c : ascii) (s : string) :
  Ascii.eqb c "?" = false -> Ascii.eqb c "#" = false ->
  Ascii.eqb c "010" = false ->
  Grob.query_part (String c s) = None.
Proof.
  intros Hq Hh Hn. unfold Grob.query_part. rewrite Hq.
  rewrite fragment_other by assumption. reflexivity.
Qed.

(** The pattern splits a text at the first [?] and the first [#] after
    it. *)
Lemma grob_match_segments (loc : string) (q frag : option string) :
  loc <> EmptyString -> free_of ["?"; "#"; "010"]%char loc = true ->
  query_ok q -> frag_ok frag ->
  Grob.grob_match (segments loc q frag)
  = Some (loc, option_map (append "?") q, option_map (append "#") frag).
Proof.
  intros Hne Hloc Hq Hf. unfold Grob.grob_match, segments.
  fold (query_text q). fold (frag_text frag).
  assert (H : Grob.dots_lazy Grob.query_part
                (loc ++ query_text q ++ frag_text frag)
              = Some (loc, (option_map (append "?") q,
                            option_map (append "#") frag))).
  { induction loc as [|c r IH]; [contradiction|].
    apply free_of_cons_inv in Hloc as [Hc Hr].
    assert (Hn : Ascii.eqb c "010" = false) by (apply Hc; simpl; auto).
    simpl. unfold Grob.dot at 1. rewrite Hn. simpl.
    destruct r as [|c' r'].
    - simpl. rewrite query_part_texts by assumption. reflexivity.
    - destruct (free_of_cons_inv _ _ _ Hr) as [Hc' _].
      change (String c' r' ++ query_text q ++ frag_text frag)
        with (String c' (r' ++ query_text q ++ frag_text frag)).
      rewrite query_part_other by (apply Hc'; simpl; auto).
      change (String c' (r' ++ query_text q ++ frag_text frag))
        with (String c' r' ++ query_text q ++ frag_text frag).
      rewrite IH; [reflexivity | discriminate | exact Hr]. }
  rewrite H. reflexivity.
Qed.

(** *** Texts, positions and slices *)

Lemma string_app_assoc (s t u : string) : (s ++ t) ++ u = s ++ t ++ u.
Proof.
  induction s as [|c r IH]; simpl; [reflexivity|]. rewrite IH. reflexivity.
Qed.

Lemma string_app_nil (s : string) : s ++ EmptyString = s.
Proof.
  induction s as [|c r IH]; simpl; [reflexivity|]. rewrite IH. reflexivity.
Qed.

Lemma len_app (s t : string) : Py.len (s ++ t) = Py.len s + Py.len t.
Proof.
  unfold Py.len. induction s as [|c r IH]; simpl String.length; [lia|].
  rewrite !Nat2Z.inj_succ. lia.
Qed.

Lemma len_cons (c : ascii) (s : string) : Py.len (String c s) = Py.len s + 1.
Proof.
  unfold Py.len. simpl String.length. lia.
Qed.

Lemma len_nonneg (s : string) : 0 <= Py.len s.
Proof.
  unfold Py.len. lia.
Qed.

Lemma find_absent (c : ascii) (s : string) :
  has_char c s = false -> Py.find c s = -1.
Proof.
  induction s as [|x r IH]; simpl; [reflexivity|].
  intros H. apply orb_false_elim in H as [Hx Hr].
  rewrite Hx, (IH Hr). reflexivity.
Qed.

Lemma find_present (c : ascii) (s : string) :
  0 <= Py.find c s -> has_char c s = true.
Proof.
  intros H. destruct (has_char c s) eqn:E; [reflexivity|].
  rewrite (find_absent c s E) in H. lia.
Qed.

Lemma find_lower (c : ascii) (s : string) : -1 <= Py.find c s.
Proof.
  induction s as [|x r IH]; simpl; [lia|].
  destruct (Ascii.eqb x c); [lia|].
  destruct (Py.find c r <? 0) eqn:E; [lia|]. apply Z.ltb_ge in E. lia.
Qed.

(** The first occurrence, when the text before it has none. *)
Lemma find_at (c : ascii) (s t : string) :
  has_char c s = false -> Py.find c (s ++ String c t) = Py.len s.
Proof.
  induction s as [|x r IH]; simpl.
  - intros _. rewrite Ascii.eqb_refl. reflexivity.
  - intros H. apply orb_false_elim in H as [Hx Hr].
    rewrite Hx, (IH Hr), len_cons.
    pose proof (len_nonneg r).
    destruct (Py.len r <? 0) eqn:E; [apply Z.ltb_lt in E; lia | reflexivity].
Qed.

Lemma drop_app (s t : string) : Py.drop (String.length s) (s ++ t) = t.
Proof.
  induction s as [|c r IH]; simpl; [destruct t; reflexivity | exact IH].
Qed.

Lemma take_app (s t : string) : Py.take (String.length s) (s ++ t) = s.
Proof.
  induction s as [|c r IH]; simpl; [destruct t; reflexivity|].
  rewrite IH. reflexivity.
Qed.

Lemma bound_inside (s : string) (i : Z) :
  0 <= i <= Py.len s -> Py.bound s i = Z.to_nat i.
Proof.
  intros [H0 H1]. unfold Py.bound.
  destruct (i <? 0) eqn:E; [apply Z.ltb_lt in E; lia|].
  f_equal. lia.
Qed.

(** [(s + t)[len(s):] = t] *)
Lemma slice_from_app (s t : string) :
  Py.slice_from (s ++ t) (Py.len s) = t.
Proof.
  unfold Py.slice_from. rewrite bound_inside.
  - unfold Py.len. rewrite Nat2Z.id. apply drop_app.
  - rewrite len_app. pose proof (len_nonneg s). pose proof (len_nonneg t). lia.
Qed.

(** [(s + v + t)[len(s):len(s) + len(v)] = v] *)
Lemma slice_app (s v t : string) :
  Py.slice (s ++ v ++ t) (Py.len s) (Py.len s + Py.len v) = v.
Proof.
  pose proof (len_nonneg s). pose proof (len_nonneg v).
  pose proof (len_nonneg t).
  unfold Py.slice. rewrite !bound_inside by (rewrite !len_app; lia).
  replace (Z.to_nat (Py.len s)) with (String.length s)
    by (unfold Py.len; lia).
  replace (Z.to_nat (Py.len s + Py.len v) - String.length s)%nat
    with (String.length v) by (unfold Py.len; lia).
  rewrite drop_app. apply take_app.
Qed.

(** [(v + t)[0:len(v)] = v] *)
Lemma slice_head (v t : string) : Py.slice (v ++ t) 0 (Py.len v) = v.
Proof.
  exact (slice_app EmptyString v t).
Qed.

(** *** The loop on a well-formed list of pairs *)

(** The last turn: a single pair is stored and the loop is left. *)
Lemma pair_turn_last (k v : string) (d : dict) :
  has_char ";" k = false -> has_char "=" k = false ->
  has_char ";" v = false ->
  pair_turn (k ++ String "=" v) d = Break (dict_set k (unquote v) d).
Proof.
  intros Hk1 Hk2 Hv. unfold pair_turn.
  rewrite (find_at "=" k v Hk2).
  rewrite (find_absent ";" (k ++ String "=" v))
    by (rewrite has_char_app; simpl; rewrite Hk1, Hv; reflexivity).
  simpl ((0 <? -1) && _). simpl (-1 <? 0).
  cbv iota.
  rewrite slice_head.
  change (k ++ String "=" v) with (k ++ String "=" EmptyString ++ v).
  rewrite <- string_app_assoc.
  replace (Py.len k + 1) with (Py.len (k ++ String "=" EmptyString))
    by (rewrite len_app; reflexivity).
  rewrite slice_from_app. reflexivity.
Qed.

(** A turn before the last: the first pair is stored and the loop goes on
    with the text after the [;]. *)
Lemma pair_turn_next (k v t : string) (d : dict) :
  has_char ";" k = false -> has_char "=" k = false ->
  has_char ";" v = false ->
  pair_turn (k ++ String "=" (v ++ String ";" t)) d
  = Again t (dict_set k (unquote v) d).
Proof.
  intros Hk1 Hk2 Hv. unfold pair_turn.
  pose proof (len_nonneg k) as Lk. pose proof (len_nonneg v) as Lv.
  rewrite (find_at "=" k _ Hk2).
  assert (Ha : Py.find ";" (k ++ String "=" (v ++ String ";" t))
               = Py.len k + 1 + Py.len v).
  { replace (k ++ String "=" (v ++ String ";" t))
      with ((k ++ String "=" v) ++ String ";" t)
      by (rewrite string_app_assoc; reflexivity).
    rewrite find_at.
    - rewrite len_app, len_cons. lia.
    - rewrite has_char_app. simpl. rewrite Hk1, Hv. reflexivity. }
  rewrite Ha.
  replace ((0 <? Py.len k + 1 + Py.len v)
           && (Py.len k + 1 + Py.len v <? Py.len k)) with false
    by (symmetry; apply andb_false_iff; right; apply Z.ltb_ge; lia).
  replace (Py.len k + 1 + Py.len v <? 0) with false
    by (symmetry; apply Z.ltb_ge; lia).
  rewrite slice_head.
  f_equal.
  - replace (k ++ String "=" (v ++ String ";" t))
      with ((k ++ String "=" (v ++ String ";" EmptyString)) ++ t).
    + replace (Py.len k + 1 + Py.len v + 1)
        with (Py.len (k ++ String "=" (v ++ String ";" EmptyString))).
      * apply slice_from_app.
      * rewrite len_app, len_cons, len_app, len_cons. unfold Py.len at 3.
        simpl. lia.
    + rewrite string_app_assoc. simpl. rewrite string_app_assoc. reflexivity.
  - f_equal. f_equal.
    replace (k ++ String "=" (v ++ String ";" t))
      with ((k ++ String "=" EmptyString) ++ v ++ String ";" t)
      by (rewrite string_app_assoc; reflexivity).
    replace (Py.len k + 1) with (Py.len (k ++ String "=" EmptyString))
      by (rewrite len_app; reflexivity).
    replace (Py.len k + 1 + Py.len v)
      with (Py.len (k ++ String "=" EmptyString) + Py.len v)
      by (rewrite len_app; unfold Py.len at 2; simpl; lia).
    apply slice_app.
Qed.

Lemma render_pairs_cons (k v : string) (kv : string * string)
  (r : list (string * string)) :
  render_pairs ((k, v) :: kv :: r)
  = k ++ String "=" (v ++ String ";" (render_pairs (kv :: r))).
Proof.
  reflexivity.
Qed.

Lemma render_pairs_one (k v : string) :
  render_pairs [(k, v)] = k ++ String "=" v.
Proof.
  reflexivity.
Qed.

(** The loop stores the pairs of a well-formed text one after the other. *)
Lemma pairs_fuel_render (bad : string -> exn) (items : list (string * string)) :
  items <> [] ->
  (forall k v, In (k, v) items ->
     has_char ";" k = false /\ has_char "=" k = false
     /\ has_char ";" v = false) ->
  forall fuel d,
    (length items <= fuel)%nat ->
    pairs_fuel fuel bad (render_pairs items) d
    = Some (Return (set_all items d)).
Proof.
  induction items as [|[k v] r IH]; intros Hne Hok fuel d Hfuel;
    [contradiction|].
  destruct (Hok k v (or_introl eq_refl)) as (Hk1 & Hk2 & Hv).
  destruct fuel as [|fuel]; [simpl in Hfuel; lia|].
  destruct r as [|kv r].
  - rewrite render_pairs_one. simpl pairs_fuel.
    rewrite pair_turn_last by assumption. reflexivity.
  - rewrite render_pairs_cons. simpl pairs_fuel.
    rewrite pair_turn_next by assumption.
    rewrite IH.
    + reflexivity.
    + discriminate.
    + intros k' v' Hin. apply Hok. right. exact Hin.
    + simpl in Hfuel |- *. lia.
Qed.

Lemma render_pairs_length (items : list (string * string)) :
  (length items <= String.length (render_pairs items))%nat.
Proof.
  induction items as [|[k v] r IH]; [simpl; lia|].
  destruct r as [|kv r].
  - rewrite render_pairs_one. pose proof (len_app k (String "=" v)) as H.
    pose proof (len_nonneg k). unfold Py.len in *.
    simpl String.length in *. simpl length. lia.
  - rewrite render_pairs_cons.
    pose proof (len_app k (String "=" (v ++ String ";" (render_pairs (kv :: r)))))
      as H1.
    pose proof (len_app v (String ";" (render_pairs (kv :: r)))) as H2.
    unfold Py.len in *. simpl String.length in *.
    simpl length in *. lia.
Qed.

Lemma pairs_render (bad : string -> exn) (items : list (string * string))
  (d : dict) :
  items <> [] ->
  (forall k v, In (k, v) items ->
     has_char ";" k = false /\ has_char "=" k = false
     /\ has_char ";" v = false) ->
  pairs bad (render_pairs items) d = Some (Return (set_all items d)).
Proof.
  intros Hne Hok. unfold pairs. apply pairs_fuel_render; try assumption.
  pose proof (render_pairs_length items). lia.
Qed.

Lemma render_pairs_has_equals (items : list (string * string)) :
  items <> [] -> has_char "=" (render_pairs items) = true.
Proof.
  destruct items as [|[k v] r]; [contradiction|]. intros _.
  destruct r as [|kv r].
  - rewrite render_pairs_one, has_char_app. simpl. apply orb_true_r.
  - rewrite render_pairs_cons, has_char_app. simpl. apply orb_true_r.
Qed.

(** A text of pairs has none of the characters the names and values have
    not, the two separators apart. *)
Lemma free_of_render (cs : list ascii) (items : list (string * string)) :
  ~ In "="%char cs -> ~ In ";"%char cs ->
  (forall k v, In (k, v) items -> free_of cs k = true /\ free_of cs v = true) ->
  free_of cs (render_pairs items) = true.
Proof.
  intros He Hs.
  assert (Hsep : forall c, c = "="%char \/ c = ";"%char ->
                           forall t, free_of cs (String c t) = free_of cs t).
  { intros c Hc t. rewrite free_of_cons.
    replace (forallb (fun c0 => negb (Ascii.eqb c c0)) cs) with true;
      [reflexivity|].
    symmetry. apply forallb_forall. intros x Hx.
    apply negb_true_iff. apply Ascii.eqb_neq.
    intros <-. destruct Hc as [-> | ->]; contradiction. }
  induction items as [|[k v] r IH]; intros Hok; [apply free_of_nil|].
  destruct (Hok k v (or_introl eq_refl)) as [Hk Hv].
  destruct r as [|kv r].
  - rewrite render_pairs_one, free_of_app, Hsep by auto.
    rewrite Hk, Hv. reflexivity.
  - rewrite render_pairs_cons, free_of_app, Hsep, free_of_app, Hsep by auto.
    rewrite Hk, Hv, IH; [reflexivity|].
    intros k' v' Hin. apply Hok. right. exact Hin.
Qed.

(** *** [strip] *)

Lemma lstrip_keeps (c : ascii) (s : string) :
  Py.isspace c = false -> has_char c s = true ->
  has_char c (Py.lstrip s) = true.
Proof.
  intros Hc. induction s as [|x r IH]; simpl; [discriminate|].
  intros H. destruct (Py.isspace x) eqn:Ex.
  - apply IH. destruct (Ascii.eqb x c) eqn:E; [|exact H].
    apply Ascii.eqb_eq in E. subst x. congruence.
  - exact H.
Qed.

Lemma rstrip_nonempty (c : ascii) (s : string) :
  Py.isspace c = false -> has_char c s = true ->
  Py.rstrip s <> EmptyString.
Proof.
  intros Hc. induction s as [|x r IH]; simpl; [discriminate|].
  intros H. destruct (Py.rstrip r) eqn:Er; [|discriminate].
  destruct (Ascii.eqb x c) eqn:E.
  - apply Ascii.eqb_eq in E. subst x. rewrite Hc. discriminate.
  - simpl in H. specialize (IH H). contradiction.
Qed.

(** A text with a character that is no space is not blank. *)
Lemma strip_not_blank (c : ascii) (s : string) :
  Py.isspace c = false -> has_char c s = true ->
  (0 <? Py.len (Py.strip s)) = true.
Proof.
  intros Hc Hs. apply Z.ltb_lt. unfold Py.strip.
  pose proof (rstrip_nonempty c _ Hc (lstrip_keeps c s Hc Hs)) as H.
  destruct (Py.rstrip (Py.lstrip s)); [contradiction|].
  rewrite len_cons. pose proof (len_nonneg s0). lia.
Qed.

Lemma startswith_mark (x : string) :
  Py.startswith "?" (String "?" x) = true.
Proof.
  unfold Py.startswith. destruct x; reflexivity.
Qed.

Lemma location_item_chars (items : list (string * string)) :
  forallb location_item items = true ->
  forall k v, In (k, v) items ->
    free_of [";"; "="; "?"; "#"; "010"]%char k = true
    /\ free_of [";"; "?"; "#"; "010"]%char v = true.
Proof.
  intros H k v Hin. rewrite forallb_forall in H.
  specialize (H _ Hin). apply andb_true_iff in H. exact H.
Qed.

Lemma query_item_chars (items : list (string * string)) :
  forallb query_item items = true ->
  forall k v, In (k, v) items ->
    free_of [";"; "="; "#"; "010"]%char k = true
    /\ free_of [";"; "#"; "010"]%char v = true.
Proof.
  intros H k v Hin. rewrite forallb_forall in H.
  specialize (H _ Hin). apply andb_true_iff in H. exact H.
Qed.

(** The parse of a text of well-formed pairs. *)
Lemma parse_pairs_text (items : list (string * string))
  (qitems : option (list (string * string))) (frag : option string) :
  items <> [] -> forallb location_item items = true ->
  query_items_ok qitems -> frag_ok frag ->
  parse (segments ("pkcs11:" ++ render_pairs items)
                  (option_map render_pairs qitems) frag)
  = Some (Return (cls (set_all items []) (set_query qitems))).
Proof.
  intros Hne Hitems Hq Hf.
  pose proof (location_item_chars items Hitems) as Hchars.
  unfold parse. rewrite grob_match_segments.
  - change (Py.partition ":" ("pkcs11:" ++ render_pairs items))
      with ("pkcs11", ":", render_pairs items).
    cbv iota beta.
    rewrite (strip_not_blank "=" _ eq_refl (render_pairs_has_equals _ Hne)).
    change (String.eqb "pkcs11" "pkcs11" && true) with true. cbv iota.
    rewrite pairs_render.
    + destruct qitems as [l|]; simpl option_map; cbv iota; [|reflexivity].
      destruct Hq as [Hlne Hl].
      pose proof (query_item_chars l Hl) as Hqc.
      rewrite startswith_mark. cbv iota.
      rewrite (slice_from_app "?" (render_pairs l) : 
                 Py.slice_from (String "?" (render_pairs l)) 1 = _).
      rewrite pairs_render; [reflexivity | exact Hlne |].
      intros k v Hin. destruct (Hqc k v Hin) as [Hk Hv].
      repeat split;
        [apply (free_of_In _ _ _ Hk) | apply (free_of_In _ _ _ Hk)
         | apply (free_of_In _ _ _ Hv)]; simpl; auto.
    + exact Hne.
    + intros k v Hin. destruct (Hchars k v Hin) as [Hk Hv].
      repeat split;
        [apply (free_of_In _ _ _ Hk) | apply (free_of_In _ _ _ Hk)
         | apply (free_of_In _ _ _ Hv)]; simpl; auto.
  - discriminate.
  - rewrite free_of_app. apply andb_true_iff. split; [reflexivity|].
    apply free_of_render.
    + simpl. intros [H|[H|[H|[]]]]; discriminate.
    + simpl. intros [H|[H|[H|[]]]]; discriminate.
    + intros k v Hin. destruct (Hchars k v Hin) as [Hk Hv]. split.
      * revert Hk. apply free_of_incl. intros x; simpl; tauto.
      * revert Hv. apply free_of_incl. intros x; simpl; tauto.
  - destruct qitems as [l|]; cbn [option_map query_ok]; [|exact I].
    destruct Hq as [Hlne Hl]. split.
    + intros E. pose proof (render_pairs_has_equals l Hlne) as H.
      rewrite E in H. discriminate.
    + apply free_of_render.
      * simpl. intros [H|[H|[]]]; discriminate.
      * simpl. intros [H|[H|[]]]; discriminate.
      * intros k v Hin.
        destruct (query_item_chars l Hl k v Hin) as [Hk Hv]. split.
        -- revert Hk. apply free_of_incl. intros x; simpl; tauto.
        -- revert Hv. apply free_of_incl. intros x; simpl; tauto.
  - exact Hf.
Qed.

(** X1: a locator written as [pkcs11:] and well-formed pairs, with or
    without a query of well-formed pairs and a fragment, parses to the
    pairs of the scheme segment and of the query, each value decoded; the
    fragment leaves no trace. *)
Theorem parse_well_formed (items : list (string * string))
  (qitems : option (list (string * string))) (frag : option string) :
  items <> [] -> forallb location_item items = true ->
  query_items_ok qitems -> frag_ok frag ->
  parse (segments ("pkcs11:" ++ render_pairs items)
                  (option_map render_pairs qitems) frag)
  = Some (Return (cls (set_all items []) (set_query qitems))).
Proof.
  apply parse_pairs_text.
Qed.

Lemma parse_well_formed_witness :
  parse "pkcs11:token=My%20Token;id=%01;token=B?pin-value=12=34;module-path=/usr/lib/p11.so#top"
  = Some (Return (cls [("token", "B"); ("id", String "001" EmptyString)]
                      [("pin-value", "12=34");
                       ("module-path", "/usr/lib/p11.so")])).
Proof.
  apply (parse_well_formed
           [("token", "My%20Token"); ("id", "%01"); ("token", "B")]
           (Some [("pin-value", "12=34"); ("module-path", "/usr/lib/p11.so")])
           (Some "top")).
  - discriminate.
  - reflexivity.
  - split; [discriminate | reflexivity].
  - split; [discriminate | reflexivity].
Defined.

(** *** The maps the loop builds *)

Lemma dict_get_set_same (k v : string) (d : dict) :
  dict_get k (dict_set k v d) = Some v.
Proof.
  induction d as [|[k' v'] r IH]; simpl.
  - rewrite String.eqb_refl. reflexivity.
  - destruct (String.eqb k' k) eqn:E; simpl; rewrite E; [reflexivity|].
    exact IH.
Qed.

Lemma dict_get_set_other (k k' v : string) (d : dict) :
  k' <> k -> dict_get k' (dict_set k v d) = dict_get k' d.
Proof.
  intros Hne. induction d as [|[k0 v0] r IH]; simpl.
  - apply String.eqb_neq in Hne. rewrite String.eqb_sym, Hne. reflexivity.
  - destruct (String.eqb k0 k) eqn:E; simpl.
    + apply String.eqb_eq in E. subst k0.
      apply String.eqb_neq in Hne. rewrite String.eqb_sym, Hne. reflexivity.
    + rewrite IH. reflexivity.
Qed.

Lemma dict_set_keys (k v : string) (d : dict) :
  forall x, In x (map fst (dict_set k v d)) <-> x = k \/ In x (map fst d).
Proof.
  induction d as [|[k' v'] r IH]; intros x; simpl.
  - intuition.
  - destruct (String.eqb k' k) eqn:E; simpl.
    + apply String.eqb_eq in E. subst k'. intuition.
    + rewrite IH. intuition.
Qed.

Lemma dict_set_NoDup (k v : string) (d : dict) :
  NoDup (map fst d) -> NoDup (map fst (dict_set k v d)).
Proof.
  induction d as [|[k' v'] r IH]; simpl; intros H.
  - constructor; [intros [] | constructor].
  - apply NoDup_cons_iff in H as [Hnotin Hr].
    destruct (String.eqb k' k) eqn:E; simpl.
    + constructor; assumption.
    + constructor; [|apply IH; exact Hr].
      rewrite dict_set_keys. intros [-> | Hin]; [|contradiction].
      rewrite String.eqb_refl in E. discriminate.
Qed.

Lemma pair_turn_sets (rest : string) (d : dict) :
  match pair_turn rest d with
  | Break d' | Again _ d' => exists k v, d' = dict_set k v d
  | Bad => True
  end.
Proof.
  unfold pair_turn.
  destruct ((0 <? Py.find ";" rest) && (Py.find ";" rest <? Py.find "=" rest));
    [exact I|].
  destruct (Py.find ";" rest <? 0); eauto.
Qed.

Lemma pairs_fuel_NoDup (bad : string -> exn) (fuel : nat) :
  forall rest d d',
    NoDup (map fst d) ->
    pairs_fuel fuel bad rest d = Some (Return d') ->
    NoDup (map fst d').
Proof.
  induction fuel as [|fuel IH]; intros rest d d' Hd H; [discriminate|].
  simpl in H. pose proof (pair_turn_sets rest d) as Ht.
  destruct (pair_turn rest d) as [d1|rest1 d1|].
  - injection H as <-. destruct Ht as (k & v & ->).
    apply dict_set_NoDup, Hd.
  - destruct Ht as (k & v & ->).
    apply (IH _ _ _ (dict_set_NoDup k v d Hd) H).
  - discriminate.
Qed.

(** X2: in the locator [parse] returns no attribute name comes twice,
    neither in the location nor in the query. *)
Theorem parse_unique_keys (uri : string) (x : PKCS11URI) :
  parse uri = Some (Return x) ->
  NoDup (map fst (_location x)) /\ NoDup (map fst (_query x)).
Proof.
  unfold parse.
  destruct (Grob.grob_match uri) as [[[g0 g1] g2]|]; [|discriminate].
  destruct (Py.partition ":" g0) as [[schema sep] rest].
  destruct (String.eqb schema "pkcs11" && (0 <? Py.len (Py.strip rest))).
  - destruct (pairs MalformedLocator rest []) as [[loc|e]|] eqn:Hl;
      try discriminate.
    assert (Hloc : NoDup (map fst loc))
      by (apply (pairs_fuel_NoDup _ _ _ [] _ (NoDup_nil _) Hl)).
    destruct g1 as [q|].
    + destruct (Py.startswith "?" q); [|discriminate].
      destruct (pairs MalformedQuery (Py.slice_from q 1) [])
        as [[qr|e]|] eqn:Hq; try discriminate.
      intros H; injection H as <-. simpl. split; [exact Hloc|].
      apply (pairs_fuel_NoDup _ _ _ [] _ (NoDup_nil _) Hq).
    + intros H; injection H as <-. simpl. split; [exact Hloc | constructor].
  - intros H; injection H as <-. simpl. split; constructor.
Qed.

Lemma parse_unique_keys_witness :
  NoDup (map fst [("token", "B"); ("id", "1")])
  /\ NoDup (map fst [("pin-value", "9")]).
Proof.
  apply (parse_unique_keys "pkcs11:token=A;id=1;token=B?pin-value=9"
           (cls [("token", "B"); ("id", "1")] [("pin-value", "9")])).
  vm_compute. reflexivity.
Defined.

Lemma set_all_get (items : list (string * string)) :
  forall d k,
    dict_get k (set_all items d)
    = match dict_get k (rev items) with
      | Some v => Some (unquote v)
      | None => dict_get k d
      end.
Proof.
  unfold set_all.
  induction items as [|[k0 v0] r IH]; intros d k; [reflexivity|].
  simpl fold_left. rewrite IH. simpl rev.
  assert (Happ : forall l,
             dict_get k (l ++ [(k0, v0)])%list
             = match dict_get k l with
               | Some v => Some v
               | None => if String.eqb k0 k then Some v0 else None
               end).
  { induction l as [|[k1 v1] l IHl]; simpl; [reflexivity|].
    destruct (String.eqb k1 k); [reflexivity | exact IHl]. }
  rewrite Happ. destruct (dict_get k (rev r)); [reflexivity|].
  destruct (String.eqb k0 k) eqn:E.
  - apply String.eqb_eq in E. subst k0. apply dict_get_set_same.
  - apply dict_get_set_other. apply String.eqb_neq.
    rewrite String.eqb_sym. exact E.
Qed.

(** X3: looking a name up in the location of a well-formed locator gives
    the decoded value of the last pair with this name, and nothing when no
    pair has it. *)
Theorem parse_lookup_last (items : list (string * string))
  (qitems : option (list (string * string))) (frag : option string) :
  items <> [] -> forallb location_item items = true ->
  query_items_ok qitems -> frag_ok frag ->
  exists x,
    parse (segments ("pkcs11:" ++ render_pairs items)
                    (option_map render_pairs qitems) frag)
    = Some (Return x)
    /\ forall k,
         dict_get k (_location x)
         = option_map unquote (dict_get k (rev items)).
Proof.
  intros Hne Hitems Hq Hf.
  exists (cls (set_all items []) (set_query qitems)). split.
  - apply parse_pairs_text; assumption.
  - intros k. simpl. rewrite set_all_get.
    destruct (dict_get k (rev items)); reflexivity.
Qed.

Lemma parse_lookup_last_witness :
  exists x,
    parse "pkcs11:token=A;id=%FF%FE;token=B" = Some (Return x)
    /\ forall k,
         dict_get k (_location x)
         = option_map unquote
             (dict_get k
                (rev [("token", "A"); ("id", "%FF%FE"); ("token", "B")])).
Proof.
  apply (parse_lookup_last
           [("token", "A"); ("id", "%FF%FE"); ("token", "B")] None None).
  - discriminate.
  - reflexivity.
  - exact I.
  - exact I.
Defined.

(** Bytes that are no UTF-8 come out of [parse] as U+FFFD, one for each
    byte that starts nothing and one for a sequence that is cut short; a
    well-formed sequence stays. *)
Example parse_invalid_utf8 :
  parse "pkcs11:id=%FF%FE;object=%E2%82%AC%E2%82" 
  = Some (Return (cls [("id", replacement ++ replacement);
                       ("object",
                        String "226" (String "130" (String "172" replacement)))]
                      [])).
Proof.
  vm_compute. reflexivity.
Qed.

(** *** Texts that are no locator of the scheme *)

Lemma dots_lazy_shape {A} (k : string -> option A) (s u : string) (x : A) :
  Grob.dots_lazy k s = Some (u, x) ->
  exists t, s = u ++ t /\ k t = Some x.
Proof.
  revert u. induction s as [|c r IH]; intros u H; simpl in H; [discriminate|].
  destruct (Grob.dot c); [|discriminate].
  destruct (k r) as [y|] eqn:Hk.
  - injection H as <- <-. exists r. split; [reflexivity | exact Hk].
  - destruct (Grob.dots_lazy k r) as [[u' y]|] eqn:Hr; [|discriminate].
    injection H as <- <-. destruct (IH u' eq_refl) as (t & -> & Ht).
    exists t. split; [reflexivity | exact Ht].
Qed.

Lemma partition_shape (c : ascii) (s h sep t : string) :
  Py.partition c s = (h, sep, t) -> s = h ++ sep ++ t.
Proof.
  revert h sep t. induction s as [|x r IH]; intros h sep t H; simpl in H.
  - injection H as <- <- <-. reflexivity.
  - destruct (Ascii.eqb x c) eqn:E.
    + injection H as <- <- <-. apply Ascii.eqb_eq in E. subst x. reflexivity.
    + destruct (Py.partition c r) as [[h' sep'] t'].
      injection H as <- <- <-. simpl. rewrite (IH h' sep' t' eq_refl).
      reflexivity.
Qed.

Lemma startswith_app (p t : string) : Py.startswith p (p ++ t) = true.
Proof.
  unfold Py.startswith. induction p as [|c r IH]; simpl.
  - destruct t; reflexivity.
  - destruct (ascii_dec c c) as [_|H]; [exact IH | contradiction].
Qed.

(** The pattern matches every text of one line. *)
Lemma grob_match_one_line (uri : string) :
  uri <> EmptyString -> has_char "010" uri = false ->
  Grob.grob_match uri <> None.
Proof.
  intros Hne Hnl. unfold Grob.grob_match.
  assert (H : Grob.dots_lazy Grob.query_part uri <> None).
  { induction uri as [|c r IH]; [contradiction|].
    simpl in Hnl. apply orb_false_elim in Hnl as [Hc Hr].
    simpl. unfold Grob.dot. rewrite Hc. simpl.
    destruct (Grob.query_part r) eqn:Hq; [discriminate|].
    destruct r as [|c' r']; [discriminate Hq|].
    specialize (IH ltac:(discriminate) Hr).
    destruct (Grob.dots_lazy Grob.query_part (String c' r')) as [[u y]|];
      [discriminate | contradiction]. }
  destruct (Grob.dots_lazy Grob.query_part uri) as [[g1 [g2 g3]]|];
    [discriminate | contradiction].
Qed.

(** X4: a text of one line that does not begin with [pkcs11] parses to the
    locator with no location and no query attribute; nothing is raised. *)
Theorem parse_other_scheme (uri : string) :
  uri <> EmptyString -> has_char "010" uri = false ->
  Py.startswith "pkcs11" uri = false ->
  parse uri = Some (Return (cls [] [])).
Proof.
  intros Hne Hnl Hp. unfold parse.
  pose proof (grob_match_one_line uri Hne Hnl) as Hm.
  unfold Grob.grob_match in *.
  destruct (Grob.dots_lazy Grob.query_part uri) as [[g0 [g1 g2]]|] eqn:Hd;
    [|contradiction].
  apply dots_lazy_shape in Hd as (t & -> & _).
  destruct (Py.partition ":" g0) as [[schema sep] rest] eqn:Hpart.
  apply partition_shape in Hpart. subst g0.
  destruct (String.eqb schema "pkcs11") eqn:E; [|reflexivity].
  apply String.eqb_eq in E. subst schema.
  rewrite string_app_assoc, startswith_app in Hp. discriminate.
Qed.

Lemma parse_other_scheme_witness :
  parse "http://example?x=1#top" = Some (Return (cls [] [])).
Proof.
  apply parse_other_scheme; [discriminate | reflexivity | reflexivity].
Defined.

Lemma query_part_mark (s q : string) (g3 : option string) :
  Grob.query_part s = Some (Some q, g3) -> Py.startswith "?" q = true.
Proof.
  unfold Grob.query_part.
  destruct s as [|c r].
  - destruct (Grob.fragment EmptyString); discriminate.
  - destruct (Ascii.eqb c "?") eqn:E.
    + destruct (Grob.dots_lazy Grob.fragment r) as [[u y]|].
      * intros H; injection H as <- _. apply Ascii.eqb_eq in E. subst c.
        apply startswith_mark.
      * destruct (Grob.fragment (String c r)); discriminate.
    + destruct (Grob.fragment (String c r)); discriminate.
Qed.

(** X5: [parse] raises nothing but ["Provided string is not an URI"],
    ["Bad location"] and ["Bad query"]; the first only for the empty text
    and for a text with a line feed.  ["Bad query in URI"] is never
    raised. *)
Theorem parse_raises (uri : string) (e : exn) :
  parse uri = Some (Raise e) ->
  (e = NotALocator /\ (uri = EmptyString \/ has_char "010" uri = true))
  \/ (exists rest, e = MalformedLocator rest)
  \/ (exists rest, e = MalformedQuery rest).
Proof.
  unfold parse.
  destruct (Grob.grob_match uri) as [[[g0 g1] g2]|] eqn:Hm.
  - destruct (Py.partition ":" g0) as [[schema sep] rest].
    destruct (String.eqb schema "pkcs11" && (0 <? Py.len (Py.strip rest)));
      [|discriminate].
    assert (Hbad : forall bad text d r e',
               pairs bad text d = Some r -> r = Raise e' ->
               exists t, e' = bad t).
    { intros bad text d r e'. unfold pairs.
      generalize (S (String.length text)) as fuel. intros fuel. revert text d.
      induction fuel as [|fuel IH]; intros text d H Hr; [discriminate|].
      simpl in H. destruct (pair_turn text d) as [d1|t1 d1|].
      - injection H as <-. discriminate.
      - apply (IH _ _ H Hr).
      - injection H as <-. injection Hr as <-. eauto. }
    destruct (pairs MalformedLocator rest []) as [[loc|e0]|] eqn:Hl;
      [| |discriminate].
    + destruct g1 as [q|]; [|discriminate].
      assert (Hq : Py.startswith "?" q = true).
      { unfold Grob.grob_match in Hm.
        destruct (Grob.dots_lazy Grob.query_part uri) as [[u [y1 y2]]|] eqn:Hd;
          [|discriminate].
        injection Hm as -> -> ->.
        apply dots_lazy_shape in Hd as (t & _ & Ht).
        apply (query_part_mark _ _ _ Ht). }
      rewrite Hq.
      destruct (pairs MalformedQuery (Py.slice_from q 1) [])
        as [[qr|e1]|] eqn:Hqr; try discriminate.
      intros H; injection H as <-.
      right; right. apply (Hbad _ _ _ _ _ Hqr eq_refl).
    + intros H; injection H as <-.
      right; left. apply (Hbad _ _ _ _ _ Hl eq_refl).
  - intros H; injection H as <-. left. split; [reflexivity|].
    destruct uri as [|c r]; [left; reflexivity|]. right.
    destruct (has_char "010" (String c r)) eqn:Hnl; [reflexivity|].
    exfalso. apply (grob_match_one_line (String c r)); auto. discriminate.
Qed.

Lemma parse_raises_witness :
  (MalformedQuery "a;b=1" = NotALocator
   /\ ("pkcs11:x=1?a;b=1" = EmptyString
       \/ has_char "010" "pkcs11:x=1?a;b=1" = true))
  \/ (exists rest, MalformedQuery "a;b=1" = MalformedLocator rest)
  \/ (exists rest, MalformedQuery "a;b=1" = MalformedQuery rest).
Proof.
  apply (parse_raises "pkcs11:x=1?a;b=1" (MalformedQuery "a;b=1")).
  vm_compute. reflexivity.
Defined.

(** X6: in a scheme segment after [pkcs11:] that has no [?], [#] or line
    feed, a [;] that comes after the first character and before the first
    [=] makes [parse] raise ["Bad location"] with the text not yet
    parsed. *)
Theorem parse_semicolon_before_equals (rest : string) :
  free_of ["?"; "#"; "010"]%char rest = true ->
  0 < Py.find ";" rest < Py.find "=" rest ->
  parse ("pkcs11:" ++ rest) = Some (Raise (MalformedLocator rest)).
Proof.
  intros Hfree Hpos.
  assert (Heq : has_char "=" rest = true) by (apply find_present; lia).
  assert (Hne : rest <> EmptyString) by (intros ->; discriminate).
  unfold parse.
  pose proof (grob_match_segments ("pkcs11:" ++ rest) None None) as Hm.
  unfold segments in Hm. simpl (_ ++ EmptyString) in Hm.
  rewrite string_app_nil in Hm. rewrite Hm.
  - change (Py.partition ":" ("pkcs11:" ++ rest)) with ("pkcs11", ":", rest).
    cbv iota beta.
    rewrite (strip_not_blank "=" _ eq_refl Heq).
    change (String.eqb "pkcs11" "pkcs11" && true) with true. cbv iota.
    rewrite pairs_semicolon_before_equals by exact Hpos. reflexivity.
  - discriminate.
  - rewrite free_of_app, Hfree. reflexivity.
  - exact I.
  - exact I.
Qed.

Lemma parse_semicolon_before_equals_witness :
  parse "pkcs11:token;id=1" = Some (Raise (MalformedLocator "token;id=1")).
Proof.
  apply (parse_semicolon_before_equals "token;id=1");
    [reflexivity | vm_compute; split; reflexivity].
Defined.

(** X7: a fragment changes nothing: for a scheme segment without [?], [#]
    and line feed and a query without [#] and line feed, the text with a
    fragment parses as the text without it. *)
Theorem parse_fragment_ignored (loc : string) (q : option string)
  (frag : string) :
  loc <> EmptyString -> free_of ["?"; "#"; "010"]%char loc = true ->
  query_ok q ->
  frag <> EmptyString -> has_char "010" frag = false ->
  parse (segments loc q (Some frag)) = parse (segments loc q None).
Proof.
  intros Hne Hloc Hq Hf1 Hf2. unfold parse.
  rewrite (grob_match_segments loc q (Some frag)) by
    (try assumption; split; assumption).
  rewrite (grob_match_segments loc q None) by (try assumption; exact I).
  reflexivity.
Qed.

Lemma parse_fragment_ignored_witness :
  parse "pkcs11:token=A;id?pin-value=1#frag=;x"
  = parse "pkcs11:token=A;id?pin-value=1".
Proof.
  apply (parse_fragment_ignored "pkcs11:token=A;id" (Some "pin-value=1")
           "frag=;x").
  - discriminate.
  - reflexivity.
  - split; [discriminate | reflexivity].
  - discriminate.
  - reflexivity.
Defined.

(** ** More on [get_session] *)

Section ResolverFacts.

Variable defs : definitions.
Variable load : option string -> Library.
Variable input : string -> option string.

Lemma check_info_ok (info : CK_INFO) (items : dict) :
  forallb (info_matches defs info) items = true ->
  check_info defs info items = Return tt.
Proof.
  induction items as [|[tag v] r IH]; simpl; [reflexivity|].
  unfold info_matches at 1. simpl.
  destruct (CK_INFO_translation defs tag) as [f|]; [|exact IH].
  destruct (String.eqb v (Py.strip (f info))); simpl; [exact IH | discriminate].
Qed.

Lemma check_info_mismatch (info : CK_INFO) (items : dict) :
  forallb (info_matches defs info) items = false ->
  exists tag v,
    check_info defs info items = Raise (LibraryMismatch tag)
    /\ In (tag, v) items
    /\ info_matches defs info (tag, v) = false.
Proof.
  induction items as [|[tag v] r IH]; simpl; [discriminate|].
  destruct (info_matches defs info (tag, v)) eqn:Em; simpl.
  - intros H. destruct (IH H) as (t & x & Hc & Hin & Hm).
    exists t, x. repeat split; auto.
    unfold info_matches in Em. simpl in Em.
    destruct (CK_INFO_translation defs tag) as [f|]; [|exact Hc].
    rewrite Em. exact Hc.
  - intros _. exists tag, v. repeat split; auto.
    unfold info_matches in Em. simpl in Em.
    destruct (CK_INFO_translation defs tag) as [f|]; [|discriminate].
    rewrite Em. reflexivity.
Qed.

Lemma find_no_match {A} (p : A -> bool) (l : list A) :
  forallb (fun x => negb (p x)) l = true -> List.find p l = None.
Proof.
  induction l as [|x r IH]; simpl; [reflexivity|].
  intros H. apply andb_true_iff in H as [Hx Hr].
  apply negb_true_iff in Hx. rewrite Hx. apply IH, Hr.
Qed.

Lemma select_slot_none (library : Library) (location : dict) :
  existsb (recognized defs) location = false
  \/ forallb (fun sl => negb (slot_matches defs library location sl))
             (getSlotList library) = true ->
  fst (select_slot defs library location) = None.
Proof.
  intros H. unfold select_slot.
  destruct (existsb (recognized defs) location) eqn:Hrec.
  - destruct H as [H|H]; [discriminate|].
    rewrite slot_loop_find by exact Hrec. apply find_no_match, H.
  - apply slot_loop_none, Hrec.
Qed.

Lemma get_session_select_none (self : PKCS11URI) (norm_user : bool)
  (w : World) :
  let library := load (dict_get "module-path" (_query self)) in
  check_info defs (getInfo library) (_location self) = Return tt ->
  fst (select_slot defs library (_location self)) = None ->
  get_session defs load input self norm_user w = (w, Return (self, None)).
Proof.
  intros library Hinfo Hsel. unfold get_session. fold library.
  rewrite Hinfo.
  destruct (select_slot defs library (_location self)) as [slot lr].
  simpl in Hsel. subst slot. reflexivity.
Qed.

End ResolverFacts.

(** X8: when the library agrees with the locator and either the locator
    names no slot or token field or no enumerated slot agrees with all it
    names, [get_session] returns [None]: it raises nothing, opens no session
    and makes no call on a session. *)
Theorem get_session_no_slot (defs : definitions)
  (load : option string -> Library) (input : string -> option string)
  (self : PKCS11URI) (norm_user : bool) (w : World) :
  let library := load (dict_get "module-path" (_query self)) in
  forallb (info_matches defs (getInfo library)) (_location self) = true ->
  existsb (recognized defs) (_location self) = false
  \/ forallb (fun sl => negb (slot_matches defs library (_location self) sl))
             (getSlotList library) = true ->
  get_session defs load input self norm_user w = (w, Return (self, None)).
Proof.
  intros library Hinfo Hsel.
  apply get_session_select_none.
  - apply check_info_ok, Hinfo.
  - apply select_slot_none, Hsel.
Qed.

Lemma get_session_no_slot_witness :
  get_session spec_definitions Mock.load Mock.typed_1234
              (cls [("token", "C"); ("object", "k")] []) true world0
  = (world0, Return (cls [("token", "C"); ("object", "k")] [], None)).
Proof.
  apply (get_session_no_slot spec_definitions Mock.load Mock.typed_1234
           (cls [("token", "C"); ("object", "k")] []) true world0).
  - reflexivity.
  - right. reflexivity.
Defined.

(** X9: when an attribute of the locator names a field of the library's
    info and differs from the trimmed field, [get_session] raises the
    library mismatch for such an attribute before any slot is looked at: no
    session is opened and no call is made. *)
Theorem get_session_library_mismatch (defs : definitions)
  (load : option string -> Library) (input : string -> option string)
  (self : PKCS11URI) (norm_user : bool) (w : World) :
  let library := load (dict_get "module-path" (_query self)) in
  forallb (info_matches defs (getInfo library)) (_location self) = false ->
  exists tag v,
    get_session defs load input self norm_user w
    = (w, Raise (LibraryMismatch tag))
    /\ In (tag, v) (_location self)
    /\ info_matches defs (getInfo library) (tag, v) = false.
Proof.
  intros library H.
  destruct (check_info_mismatch defs (getInfo library) (_location self) H)
    as (tag & v & Hc & Hin & Hm).
  exists tag, v. repeat split; auto.
  unfold get_session. fold library. rewrite Hc. reflexivity.
Qed.

Lemma get_session_library_mismatch_witness :
  exists tag v,
    get_session spec_definitions Mock.load Mock.typed_1234
                (cls [("token", "A"); ("library-manufacturer", "Other")] [])
                true world0
    = (world0, Raise (LibraryMismatch tag))
    /\ In (tag, v) [("token", "A"); ("library-manufacturer", "Other")]
    /\ info_matches spec_definitions (getInfo (Mock.load None)) (tag, v)
       = false.
Proof.
  apply (get_session_library_mismatch spec_definitions Mock.load
           Mock.typed_1234
           (cls [("token", "A"); ("library-manufacturer", "Other")] [])
           true world0).
  reflexivity.
Defined.

(** X10: the sessions open after [get_session]: one more than before when
    it returns a session, and also when it raises at the login; as many as
    before when it returns [None] or raises for the library or for the
    session's info. *)
Theorem get_session_open_count (defs : definitions)
  (load : option string -> Library) (input : string -> option string)
  (self : PKCS11URI) (norm_user : bool) (w : World) :
  open_count (fst (get_session defs load input self norm_user w))
  = if leaves_open (snd (get_session defs load input self norm_user w))
    then S (open_count w) else open_count w.
Proof.
  destruct (snd (get_session defs load input self norm_user w))
    as [[self' [s|]]|e] eqn:Hr.
  - revert Hr. unfold get_session.
    destruct (check_info _ _ _) as [[]|]; [|discriminate].
    destruct (select_slot _ _ _) as [[sl|] lr]; [|discriminate].
    destruct (check_session _ _ _); [discriminate|].
    destruct lr; [|reflexivity].
    destruct (dict_get "pin-value" (_query self)) as [p|].
    + destruct (login_ok _ p _); [reflexivity | discriminate].
    + destruct (input (prompt norm_user)) as [p|]; [|discriminate].
      destruct (login_ok _ p _); [reflexivity | discriminate].
  - revert Hr. unfold get_session.
    destruct (check_info _ _ _) as [[]|]; [|discriminate].
    destruct (select_slot _ _ _) as [[sl|] lr]; [|reflexivity].
    destruct (check_session _ _ _); [discriminate|].
    destruct lr; [|discriminate].
    destruct (dict_get "pin-value" (_query self)) as [p|].
    + destruct (login_ok _ p _); simpl; intros H; [|discriminate].
      injection H as _ H. discriminate.
    + destruct (input (prompt norm_user)) as [p|]; [|discriminate].
      destruct (login_ok _ p _); simpl; intros H; [|discriminate].
      injection H as _ H. discriminate.
  - apply get_session_raise_open_count. exact Hr.
Qed.

(** X11: with a [pin-value] in the query the PIN is never asked for:
    [get_session] does the same whatever [input] would give, and makes no
    [input] call. *)
Theorem get_session_pin_value_first (defs : definitions)
  (load : option string -> Library) (input input' : string -> option string)
  (self : PKCS11URI) (norm_user : bool) (w : World) (p : string) :
  dict_get "pin-value" (_query self) = Some p ->
  get_session defs load input self norm_user w
  = get_session defs load input' self norm_user w
  /\ forall msg,
       In (EvInput msg)
          (calls (fst (get_session defs load input self norm_user w))) ->
       In (EvInput msg) (calls w).
Proof.
  intros Hp. split.
  - unfold get_session. rewrite Hp. reflexivity.
  - intros msg. unfold get_session. rewrite Hp.
    destruct (check_info _ _ _) as [[]|]; [|auto].
    destruct (select_slot _ _ _) as [[sl|] lr]; [|auto].
    destruct (check_session _ _ _).
    + simpl. rewrite !in_app_iff. simpl. intuition discriminate.
    + destruct lr.
      * destruct (login_ok _ p _); simpl; rewrite !in_app_iff; simpl;
          intuition discriminate.
      * simpl. rewrite in_app_iff. simpl. intuition discriminate.
Qed.

Lemma get_session_pin_value_first_witness :
  get_session spec_definitions Mock.load Mock.no_input
              (cls [("token", "A")] [("pin-value", "1234")]) true world0
  = get_session spec_definitions Mock.load Mock.typed_1234
                (cls [("token", "A")] [("pin-value", "1234")]) true world0.
Proof.
  apply (get_session_pin_value_first spec_definitions Mock.load Mock.no_input
           Mock.typed_1234 (cls [("token", "A")] [("pin-value", "1234")])
           true world0 "1234" eq_refl).
Defined.

(** X12: [get_session] reads the mechanisms only after a login.  When it
    returns, the location and the query are as before, and the operations
    are those of the slot chosen if [login_required] held and are left as
    they were if not; so with no token asking for a login the operations
    never change. *)
Theorem get_session_operations (defs : definitions)
  (load : option string -> Library) (input : string -> option string)
  (self self' : PKCS11URI) (norm_user : bool) (w : World)
  (r : option Session) :
  let library := load (dict_get "module-path" (_query self)) in
  snd (get_session defs load input self norm_user w) = Return (self', r) ->
  _location self' = _location self
  /\ _query self' = _query self
  /\ (forall sl lr,
        select_slot defs library (_location self) = (Some sl, lr) ->
        gen_operations self'
        = if lr then read_operations library sl else gen_operations self)
  /\ (forallb (fun sl => negb (token_requires_login library sl))
              (getSlotList library) = true ->
      self' = self).
Proof.
  intros library. unfold get_session. fold library.
  destruct (check_info _ _ _) as [[]|]; [|discriminate].
  destruct (select_slot defs library (_location self)) as [[sl|] lr] eqn:Hsel.
  - destruct (check_session _ _ _); [discriminate|].
    assert (Hlr : forallb (fun sl => negb (token_requires_login library sl))
                          (getSlotList library) = true -> lr = false).
    { intros Hall. unfold select_slot in Hsel.
      apply slot_loop_login in Hsel as (pre & post & Hs & _ & _ & ->).
      simpl. rewrite Hs in Hall. clear Hs.
      rewrite forallb_app in Hall. apply andb_true_iff in Hall as [Hpre Hp].
      simpl in Hp. apply andb_true_iff in Hp as [Hsl _].
      rewrite existsb_app. simpl. apply negb_true_iff in Hsl. rewrite Hsl.
      simpl. rewrite orb_false_r.
      clear -Hpre. induction pre as [|a pre IH]; simpl in *; [reflexivity|].
      apply andb_true_iff in Hpre as [Ha Hpre].
      apply negb_true_iff in Ha. rewrite Ha. apply IH, Hpre. }
    destruct lr.
    + destruct (dict_get "pin-value" (_query self)) as [p|].
      * destruct (login_ok _ p _); simpl; intros H; [|discriminate].
        injection H as <- <-. simpl. repeat split.
        -- intros sl' lr' E. injection E as <- <-. reflexivity.
        -- intros Hall. specialize (Hlr Hall). discriminate.
      * destruct (input (prompt norm_user)) as [p|]; [|discriminate].
        destruct (login_ok _ p _); simpl; intros H; [|discriminate].
        injection H as <- <-. simpl. repeat split.
        -- intros sl' lr' E. injection E as <- <-. reflexivity.
        -- intros Hall. specialize (Hlr Hall). discriminate.
    + simpl. intros H. injection H as <- <-. repeat split.
      intros sl' lr' E. injection E as <- <-. reflexivity.
  - simpl. intros H. injection H as <- <-. repeat split.
    intros sl' lr' E. discriminate.
Qed.

Lemma get_session_operations_witness :
  gen_operations
    (mkURI [("token", "B")] [] (read_operations (Mock.load None) 2))
  = read_operations (Mock.load None) 2.
Proof.
  destruct (get_session_operations spec_definitions Mock.load Mock.typed_1234
              (cls [("token", "B")] [])
              (mkURI [("token", "B")] []
                     (read_operations (Mock.load None) 2))
              true world0
              (Some (Mock.session "1234" [Mock.key1; Mock.key2; Mock.pub1]))
              eq_refl) as (_ & _ & H & _).
  apply (H 2 true). reflexivity.
Defined.

(** X13: the operations read for a slot are exactly the pairs of one of its
    mechanisms with the name, less its [CKF_] marks, of a flag of the
    mechanism's info that is set. *)
Theorem read_operations_spec (library : Library) (slot : Slot) (m : Z)
  (op : string) :
  In (m, op) (read_operations library slot)
  <-> In m (getMechanismList library slot)
      /\ exists mf name,
           In (mf, name) (flags_dict (getMechanismInfo library slot m))
           /\ Z.land (flags (getMechanismInfo library slot m)) mf <> 0
           /\ op = Py.replace "CKF_" EmptyString name.
Proof.
  unfold read_operations. rewrite in_flat_map. split.
  - intros (m' & Hm & Hin). apply in_flat_map in Hin as ([mf name] & Hf & Hin).
    destruct (Z.land (flags (getMechanismInfo library slot m')) mf =? 0) eqn:E;
      simpl in Hin; [contradiction|].
    destruct Hin as [Heq|[]]. injection Heq as -> <-.
    split; [exact Hm|]. exists mf, name. repeat split; auto.
    apply Z.eqb_neq, E.
  - intros (Hm & mf & name & Hf & Hl & ->).
    exists m. split; [exact Hm|]. apply in_flat_map.
    exists (mf, name). split; [exact Hf|].
    apply Z.eqb_neq in Hl. rewrite Hl. simpl. auto.
Qed.

(** *** Values with spaces at an end *)

Lemma rstrip_idempotent (s : string) : Py.rstrip (Py.rstrip s) = Py.rstrip s.
Proof.
  induction s as [|c r IH]; [reflexivity|].
  simpl. destruct (Py.rstrip r) as [|c' r'] eqn:Er.
  - destruct (Py.isspace c) eqn:Ec; simpl; [reflexivity|].
    rewrite Ec. reflexivity.
  - simpl. simpl in IH. destruct (Py.rstrip r') as [|c2 r2] eqn:Er'.
    + destruct (Py.isspace c') eqn:Ec'; [discriminate|].
      injection IH as <-. reflexivity.
    + injection IH as <-. reflexivity.
Qed.

Lemma lstrip_starts_black (s : string) : starts_black (Py.lstrip s).
Proof.
  induction s as [|c r IH]; simpl; [exact I|].
  destruct (Py.isspace c) eqn:E; [exact IH | exact E].
Qed.

Lemma rstrip_starts_black (s : string) :
  starts_black s -> starts_black (Py.rstrip s).
Proof.
  destruct s as [|c r]; simpl; [auto|]. intros Hc.
  destruct (Py.rstrip r); [rewrite Hc|]; exact Hc.
Qed.

Lemma lstrip_black (s : string) : starts_black s -> Py.lstrip s = s.
Proof.
  destruct s as [|c r]; simpl; [reflexivity|]. intros ->. reflexivity.
Qed.

(** [strip] of a stripped text changes nothing. *)
Lemma strip_idempotent (s : string) : Py.strip (Py.strip s) = Py.strip s.
Proof.
  unfold Py.strip.
  rewrite (lstrip_black (Py.rstrip (Py.lstrip s)))
    by (apply rstrip_starts_black, lstrip_starts_black).
  apply rstrip_idempotent.
Qed.

Lemma untrimmed_no_match (defs : definitions) (library : Library)
  (location : dict) (sl : Slot) :
  existsb (untrimmed defs) location = true ->
  slot_matches defs library location sl = false.
Proof.
  unfold slot_matches. induction location as [|[tag v] r IH]; simpl;
    [discriminate|].
  intros H. apply orb_true_iff in H as [H|H].
  - apply andb_false_iff. left.
    unfold untrimmed, recognized, attr_matches in *. simpl in *.
    apply andb_true_iff in H as [Hrec Hv].
    apply negb_true_iff, String.eqb_neq in Hv.
    destruct (CK_SLOT_INFO_translation defs tag) as [f|].
    + destruct (String.eqb v (Py.strip (f (getSlotInfo library sl)))) eqn:E;
        [|reflexivity].
      apply String.eqb_eq in E. exfalso. apply Hv. rewrite E.
      apply strip_idempotent.
    + destruct (CK_TOKEN_INFO_translation defs tag) as [g|]; [|discriminate].
      destruct (String.eqb v (Py.strip (g (getTokenInfo library sl)))) eqn:E;
        [|reflexivity].
      apply String.eqb_eq in E. exfalso. apply Hv. rewrite E.
      apply strip_idempotent.
  - rewrite (IH H). apply andb_false_r.
Qed.

(** X14: the fields of the device are trimmed before the comparison and the
    values of the locator are not: when an attribute that names a slot or
    token field has a space at the start or at the end of its value, no slot
    is chosen and [get_session] returns [None] without opening a session. *)
Theorem get_session_untrimmed_value (defs : definitions)
  (load : option string -> Library) (input : string -> option string)
  (self : PKCS11URI) (norm_user : bool) (w : World) :
  let library := load (dict_get "module-path" (_query self)) in
  forallb (info_matches defs (getInfo library)) (_location self) = true ->
  existsb (untrimmed defs) (_location self) = true ->
  get_session defs load input self norm_user w = (w, Return (self, None)).
Proof.
  intros library Hinfo Hun.
  apply get_session_select_none.
  - apply check_info_ok, Hinfo.
  - apply select_slot_none. right. apply forallb_forall. intros sl _.
    apply negb_true_iff, untrimmed_no_match, Hun.
Qed.

Lemma get_session_untrimmed_value_witness :
  get_session spec_definitions Mock.load Mock.typed_1234
              (cls [("token", "A ")] []) true world0
  = (world0, Return (cls [("token", "A ")] [], None)).
Proof.
  apply (get_session_untrimmed_value spec_definitions Mock.load
           Mock.typed_1234 (cls [("token", "A ")] []) true world0);
    reflexivity.
Defined.

(** *** The order of the attributes *)

Lemma existsb_permutation {A} (p : A -> bool) (l l' : list A) :
  Permutation l l' -> existsb p l = existsb p l'.
Proof.
  induction 1; simpl.
  - reflexivity.
  - rewrite IHPermutation. reflexivity.
  - destruct (p x), (p y); reflexivity.
  - congruence.
Qed.

Lemma forallb_permutation {A} (p : A -> bool) (l l' : list A) :
  Permutation l l' -> forallb p l = forallb p l'.
Proof.
  induction 1; simpl.
  - reflexivity.
  - rewrite IHPermutation. reflexivity.
  - destruct (p x), (p y); reflexivity.
  - congruence.
Qed.

Lemma slot_loop_permutation (defs : definitions) (library : Library)
  (location location' : dict) (slots : list Slot) :
  Permutation location location' ->
  forall slot lr,
    slot_loop defs library location slots slot lr
    = slot_loop defs library location' slots slot lr.
Proof.
  intros Hp. induction slots as [|sl r IH]; intros slot lr; [reflexivity|].
  simpl. rewrite !match_tags_spec.
  rewrite (existsb_permutation _ _ _ Hp), (forallb_permutation _ _ _ Hp).
  destruct (existsb (recognized defs) location').
  - destruct (forallb (attr_matches defs library sl) location');
      [reflexivity | apply IH].
  - apply IH.
Qed.

(** X15: the slot chosen and [login_required] do not depend on the order
    of the attributes in the locator. *)
Theorem select_slot_order (defs : definitions) (library : Library)
  (location location' : dict) :
  Permutation location location' ->
  select_slot defs library location = select_slot defs library location'.
Proof.
  intros Hp. unfold select_slot. apply slot_loop_permutation, Hp.
Qed.

Lemma select_slot_order_witness :
  select_slot spec_definitions (Mock.load None)
              [("token", "B"); ("model", "M1")]
  = select_slot spec_definitions (Mock.load None)
                [("model", "M1"); ("token", "B")].
Proof.
  apply select_slot_order. apply perm_swap.
Defined.

(** ** More on the object search *)

Section SearchFacts.

Variable defs : definitions.

Lemma key_template_app (items : dict) :
  forall tpl,
    key_template defs items tpl
    = (tpl ++ key_template defs items [])%list.
Proof.
  induction items as [|[tag v] r IH]; intros tpl; simpl.
  - rewrite app_nil_r. reflexivity.
  - destruct (_PKCS11_key_translation defs tag) as [[key operation]|];
      [|apply IH].
    rewrite IH, (IH (append_val [] key (operation v))).
    unfold append_val. destruct (operation v); simpl.
    + rewrite <- app_assoc. reflexivity.
    + reflexivity.
Qed.

Lemma key_translation_cases (tag : string) (key : Z)
  (operation : string -> option attr_value) :
  _PKCS11_key_translation defs tag = Some (key, operation) ->
  (tag = "object" /\ key = CKA_LABEL /\ operation = __get_object_value)
  \/ (tag = "id" /\ key = CKA_ID /\ operation = __get_id_value)
  \/ (tag = "type" /\ key = CKA_CLASS /\ operation = __get_type_value defs).
Proof.
  unfold _PKCS11_key_translation.
  destruct (String.eqb tag "object") eqn:Eo.
  { apply String.eqb_eq in Eo. intros H; injection H as <- <-. auto. }
  destruct (String.eqb tag "id") eqn:Ei.
  { apply String.eqb_eq in Ei. intros H; injection H as <- <-. auto. }
  destruct (String.eqb tag "type") eqn:Et; [|discriminate].
  apply String.eqb_eq in Et. intros H; injection H as <- <-. auto.
Qed.

Lemma key_translation_none (tag : string) :
  object_attribute (tag, tag) = false ->
  _PKCS11_key_translation defs tag = None.
Proof.
  unfold object_attribute, _PKCS11_key_translation. simpl.
  destruct (String.eqb tag "object"); [discriminate|].
  destruct (String.eqb tag "id"); [discriminate|].
  destruct (String.eqb tag "type"); [discriminate | reflexivity].
Qed.

Lemma key_template_In_translation (items : dict) (key : Z)
  (val : attr_value) :
  In (key, val) (key_template defs items [])
  <-> exists tag v operation,
        In (tag, v) items
        /\ _PKCS11_key_translation defs tag = Some (key, operation)
        /\ operation v = Some val.
Proof.
  induction items as [|[tag v] r IH]; simpl.
  - split; [intros [] | intros (t & x & o & [] & _)].
  - destruct (_PKCS11_key_translation defs tag) as [[k operation]|] eqn:Ht.
    + rewrite key_template_app, in_app_iff, IH. clear IH. split.
      * intros [H|(t & x & o & Hin & Hto)].
        -- unfold append_val in H. destruct (operation v) as [y|] eqn:Eo;
             simpl in H; [|contradiction].
           destruct H as [H|[]]. injection H as <- <-.
           exists tag, v, operation. auto.
        -- exists t, x, o. tauto.
      * intros (t & x & o & [Hin|Hin] & Hk & Ho).
        -- injection Hin as <- <-. rewrite Ht in Hk. injection Hk as <- <-.
           left. unfold append_val. rewrite Ho. simpl. auto.
        -- right. exists t, x, o. auto.
    + rewrite IH. clear IH. split.
      * intros (t & x & o & Hin & Hto). exists t, x, o. tauto.
      * intros (t & x & o & [Hin|Hin] & Hk & Ho).
        -- injection Hin as <- <-. congruence.
        -- exists t, x, o. auto.
Qed.

(** The entries of the template of [get_key], by the attributes of the
    locator. *)
Lemma key_template_In (items : dict) (key : Z) (val : attr_value) :
  In (key, val) (key_template defs items [])
  <-> (exists v, In ("object", v) items /\ key = CKA_LABEL /\ val = AStr v)
      \/ (exists v, In ("id", v) items /\ key = CKA_ID /\ val = ABytes v)
      \/ (exists v c, In ("type", v) items
                      /\ PKCS11_type_translation defs v = Some c
                      /\ key = CKA_CLASS /\ val = AInt c).
Proof.
  rewrite key_template_In_translation. split.
  - intros (tag & v & o & Hin & Hk & Ho).
    apply key_translation_cases in Hk.
    destruct Hk as [(-> & -> & ->)|[(-> & -> & ->)|(-> & -> & ->)]].
    + left. exists v. injection Ho as <-. auto.
    + right. left. exists v. injection Ho as <-. auto.
    + right. right. unfold __get_type_value in Ho.
      destruct (PKCS11_type_translation defs v) as [c|] eqn:Ec;
        [|discriminate].
      injection Ho as <-. exists v, c. auto.
  - intros [(v & Hin & -> & ->)|[(v & Hin & -> & ->)
                                  |(v & c & Hin & Hc & -> & ->)]].
    + exists "object", v, __get_object_value. auto.
    + exists "id", v, __get_id_value. auto.
    + exists "type", v, (__get_type_value defs). repeat split; auto.
      unfold __get_type_value. rewrite Hc. reflexivity.
Qed.

Lemma key_template_unused (items : dict) :
  existsb object_attribute items = false ->
  key_template defs items [] = [].
Proof.
  induction items as [|[tag v] r IH]; simpl; [reflexivity|].
  intros H. apply orb_false_elim in H as [Ht Hr].
  rewrite (key_translation_none tag) by exact Ht.
  apply IH, Hr.
Qed.

(** The loop of [get_private_key] builds the template [get_key] builds for
    the locator with its [type] set to [private]. *)
Lemma private_key_loop_template (items : dict) :
  forall st,
    pk_template (private_key_loop defs items st)
    = key_template defs (force_private items) (pk_template st)
    /\ pk_found (private_key_loop defs items st)
       = pk_found st || existsb is_type items.
Proof.
  induction items as [|[tag v] r IH]; intros st.
  - simpl. rewrite orb_false_r. auto.
  - cbn [private_key_loop force_private map existsb].
    fold (force_private r).
    change (is_type (tag, v)) with (String.eqb tag "type").
    destruct (String.eqb tag "type") eqn:Et.
    + apply String.eqb_eq in Et. subst tag.
      cbn [fst key_template].
      change (_PKCS11_key_translation defs "type")
        with (Some (CKA_CLASS, __get_type_value defs)).
      change (String.eqb "type" "type") with true.
      cbv iota beta.
      match goal with
      | |- context [private_key_loop defs r ?st'] =>
          destruct (IH st') as [H1 H2]
      end.
      rewrite H1, H2. cbn [pk_template pk_found].
      rewrite orb_true_r. auto.
    + cbn [key_template].
      destruct (_PKCS11_key_translation defs tag) as [[key operation]|].
      * match goal with
        | |- context [private_key_loop defs r ?st'] =>
            destruct (IH st') as [H1 H2]
        end.
        rewrite H1, H2. cbn [pk_template pk_found]. auto.
      * apply IH.
Qed.

End SearchFacts.

(** X16: the template [get_key] searches with has an entry for the label
    exactly for an [object] of the locator, for the id exactly for an [id],
    its bytes being the text, and for the class exactly for a [type] the
    table knows; a [type] the table does not know and every other attribute
    add nothing. *)
Theorem get_key_template_entries (defs : definitions) (location : dict)
  (key : Z) (val : attr_value) :
  In (key, val) (key_template defs location [])
  <-> (exists v, In ("object", v) location /\ key = CKA_LABEL /\ val = AStr v)
      \/ (exists v, In ("id", v) location /\ key = CKA_ID /\ val = ABytes v)
      \/ (exists v c, In ("type", v) location
                      /\ PKCS11_type_translation defs v = Some c
                      /\ key = CKA_CLASS /\ val = AInt c).
Proof.
  apply key_template_In.
Qed.

(** X17: for a locator with no [object], [id] or [type], [get_key] returns
    three [None] and prints nothing, whatever the session holds. *)
Theorem get_key_no_object_attribute (defs : definitions) (self : PKCS11URI)
  (session : option Session) :
  existsb object_attribute (_location self) = false ->
  get_key defs self session = (Return (None, None, None), []).
Proof.
  intros H. unfold get_key.
  rewrite (key_template_unused defs _ H).
  destruct session; reflexivity.
Qed.

Lemma get_key_no_object_attribute_witness :
  get_key spec_definitions (cls [("token", "A"); ("serial", "0001")] [])
          (Some (Mock.session "1234" [Mock.key1; Mock.key2; Mock.pub1]))
  = (Return (None, None, None), []).
Proof.
  apply (get_key_no_object_attribute spec_definitions
           (cls [("token", "A"); ("serial", "0001")] [])).
  reflexivity.
Defined.

(** X18: [get_private_key] searches with the template [get_key] builds for
    the locator whose every [type] is set to [private], with the class entry
    for [private] added at the end when the locator has no [type]. *)
Theorem get_private_key_template (defs : definitions) (self : PKCS11URI) :
  pk_template (private_key_template defs self)
  = if existsb is_type (_location self)
    then key_template defs (force_private (_location self)) []
    else append_val (key_template defs (force_private (_location self)) [])
                    CKA_CLASS (__get_type_value defs "private").
Proof.
  unfold private_key_template.
  destruct (private_key_loop_template defs (_location self)
              (mkVars [] false None None)) as [Ht Hf].
  rewrite Hf. simpl orb.
  destruct (existsb is_type (_location self)); simpl; rewrite Ht; reflexivity.
Qed.



(** ** [to_biginteger_bytes] *)

Lemma big_endian_length (n : nat) (v : Z) : length (big_endian n v) = n.
Proof.
  induction n as [|n IH]; simpl; [reflexivity | rewrite IH; reflexivity].
Qed.

Lemma big_endian_bytes (n : nat) (v : Z) :
  Forall (fun b => 0 <= b < 256) (big_endian n v).
Proof.
  induction n as [|n IH]; simpl; constructor; [|exact IH].
  apply Z.mod_pos_bound. lia.
Qed.

Lemma from_bytes_acc (bs : list Z) (acc : Z) :
  fold_left (fun acc b => acc * 256 + b) bs acc
  = acc * 256 ^ Z.of_nat (length bs) + from_bytes bs.
Proof.
  unfold from_bytes. revert acc.
  induction bs as [|b r IH]; intros acc.
  - simpl. lia.
  - cbn [fold_left length]. rewrite IH, (IH (0 * 256 + b)).
    rewrite Nat2Z.inj_succ, Z.pow_succ_r by lia. ring.
Qed.

Lemma from_bytes_big_endian (n : nat) (v : Z) :
  from_bytes (big_endian n v) = v mod 256 ^ Z.of_nat n.
Proof.
  induction n as [|n IH].
  - simpl. rewrite Z.mod_1_r. reflexivity.
  - cbn [big_endian]. unfold from_bytes. cbn [fold_left].
    rewrite from_bytes_acc, big_endian_length, IH.
    rewrite Nat2Z.inj_succ, Z.pow_succ_r by lia.
    rewrite (Z.mul_comm 256).
    rewrite Z.rem_mul_r by (try apply Z.pow_nonzero; lia).
    ring.
Qed.

Lemma bit_length_nonneg (v : Z) : 0 <= bit_length v.
Proof.
  unfold bit_length. destruct (v =? 0); [lia|].
  pose proof (Z.log2_nonneg (Z.abs v)). lia.
Qed.

Lemma bit_length_bounds (v : Z) :
  0 < v -> 2 ^ (bit_length v - 1) <= v < 2 ^ bit_length v.
Proof.
  intros Hv. unfold bit_length.
  replace (v =? 0) with false by (symmetry; apply Z.eqb_neq; lia).
  rewrite Z.abs_eq by lia.
  replace (Z.log2 v + 1 - 1) with (Z.log2 v) by lia.
  replace (Z.log2 v + 1) with (Z.succ (Z.log2 v)) by lia.
  apply Z.log2_spec, Hv.
Qed.

Lemma pow_256 (n : Z) : 0 <= n -> 256 ^ n = 2 ^ (8 * n).
Proof.
  intros Hn. rewrite Z.pow_mul_r by lia. reflexivity.
Qed.

Lemma byte_count_bounds (v : Z) :
  0 <= (bit_length v + 7) / 8
  /\ bit_length v <= 8 * ((bit_length v + 7) / 8) < bit_length v + 8.
Proof.
  pose proof (bit_length_nonneg v) as H.
  pose proof (Z.div_mod (bit_length v + 7) 8 ltac:(lia)) as Hd.
  pose proof (Z.mod_pos_bound (bit_length v + 7) 8 ltac:(lia)) as Hm.
  split; [apply Z.div_pos; lia | lia].
Qed.

Lemma fits (v : Z) : 0 <= v -> v < 256 ^ ((bit_length v + 7) / 8).
Proof.
  intros Hv. destruct (byte_count_bounds v) as [Hn [Hlo _]].
  rewrite pow_256 by exact Hn.
  destruct (Z.eq_dec v 0) as [->|Hz].
  - apply Z.pow_pos_nonneg; lia.
  - apply Z.lt_le_trans with (2 ^ bit_length v).
    + apply bit_length_bounds. lia.
    + apply Z.pow_le_mono_r; lia.
Qed.

(** X20: for a number that is not negative, [to_biginteger_bytes] gives
    bytes that read back, most significant first, as the number; there are
    [(bit_length + 7) // 8] of them, none for zero. *)
Theorem to_biginteger_bytes_round_trip (value : Z) :
  0 <= value ->
  exists bs,
    to_biginteger_bytes value = Done bs
    /\ from_bytes bs = value
    /\ Forall (fun b => 0 <= b < 256) bs
    /\ Z.of_nat (length bs) = (bit_length value + 7) / 8
    /\ (value = 0 -> bs = []).
Proof.
  intros Hv. destruct (byte_count_bounds value) as [Hn _].
  pose proof (fits value Hv) as Hfit.
  exists (big_endian (Z.to_nat ((bit_length value + 7) / 8)) value).
  repeat split.
  - unfold to_biginteger_bytes, to_bytes.
    replace (value <? 0) with false by (symmetry; apply Z.ltb_ge; lia).
    replace (256 ^ ((bit_length value + 7) / 8) <=? value) with false
      by (symmetry; apply Z.leb_gt; lia).
    reflexivity.
  - rewrite from_bytes_big_endian, Z2Nat.id by exact Hn.
    apply Z.mod_small. lia.
  - apply big_endian_bytes.
  - rewrite big_endian_length. apply Z2Nat.id, Hn.
  - intros ->. reflexivity.
Qed.

Lemma to_biginteger_bytes_round_trip_witness :
  exists bs,
    to_biginteger_bytes 65537 = Done bs
    /\ from_bytes bs = 65537
    /\ Forall (fun b => 0 <= b < 256) bs
    /\ Z.of_nat (length bs) = (bit_length 65537 + 7) / 8
    /\ (65537 = 0 -> bs = []).
Proof.
  apply (to_biginteger_bytes_round_trip 65537). lia.
Defined.

(** X21: the bytes [to_biginteger_bytes] gives for a positive number are
    as few as can be: the first byte is not zero. *)
Theorem to_biginteger_bytes_minimal (value : Z) :
  0 < value ->
  exists b bs,
    to_biginteger_bytes value = Done (b :: bs) /\ 0 < b < 256.
Proof.
  intros Hv. destruct (byte_count_bounds value) as [Hn [Hlo Hhi]].
  pose proof (fits value ltac:(lia)) as Hfit.
  pose proof (bit_length_bounds value Hv) as [Hlow _].
  set (n := (bit_length value + 7) / 8) in *.
  assert (Hbl : 0 < bit_length value).
  { unfold bit_length.
    replace (value =? 0) with false by (symmetry; apply Z.eqb_neq; lia).
    pose proof (Z.log2_nonneg (Z.abs value)). lia. }
  assert (Hn1 : 0 < n) by lia.
  unfold to_biginteger_bytes, to_bytes. fold n.
  replace (value <? 0) with false by (symmetry; apply Z.ltb_ge; lia).
  replace (256 ^ n <=? value) with false by (symmetry; apply Z.leb_gt; lia).
  destruct (Z.to_nat n) as [|m] eqn:Em; [lia|].
  cbn [big_endian].
  exists ((value / 256 ^ Z.of_nat m) mod 256), (big_endian m value).
  split; [reflexivity|].
  assert (Hm : Z.of_nat m = n - 1) by lia.
  rewrite Hm.
  assert (Hp : 0 < 256 ^ (n - 1)) by (apply Z.pow_pos_nonneg; lia).
  assert (Hge : 256 ^ (n - 1) <= value).
  { rewrite pow_256 by lia.
    apply Z.le_trans with (2 ^ (bit_length value - 1)); [|exact Hlow].
    apply Z.pow_le_mono_r; lia. }
  assert (Hq1 : 1 <= value / 256 ^ (n - 1)).
  { apply Z.div_le_lower_bound; lia. }
  assert (Hq2 : value / 256 ^ (n - 1) < 256).
  { apply Z.div_lt_upper_bound; [exact Hp|].
    replace (256 ^ (n - 1) * 256) with (256 ^ n); [exact Hfit|].
    replace n with (Z.succ (n - 1)) at 1 by lia.
    rewrite Z.pow_succ_r by lia. ring. }
  rewrite Z.mod_small by lia. lia.
Qed.

Lemma to_biginteger_bytes_minimal_witness :
  exists b bs, to_biginteger_bytes 256 = Done (b :: bs) /\ 0 < b < 256.
Proof.
  apply (to_biginteger_bytes_minimal 256). lia.
Defined.

(** A negative number is an [OverflowError]. *)
Lemma to_biginteger_bytes_negative (value : Z) :
  value < 0 -> to_biginteger_bytes value = Fails OverflowError.
Proof.
  intros Hv. unfold to_biginteger_bytes, to_bytes.
  replace (value <? 0) with true by (symmetry; apply Z.ltb_lt; lia).
  reflexivity.
Qed.

(** ** [PKCS11KeyUsage] *)

Lemma value_ne_false (a b : option bool) : value_ne a b = false <-> a = b.
Proof.
  destruct a as [[]|], b as [[]|]; simpl; split; intros H;
    try reflexivity; try discriminate.
Qed.

(** X22: two [PKCS11KeyUsage] compare equal exactly when they agree on
    each of the five operations, [None] being a value like the others. *)
Theorem PKCS11KeyUsage_eq_spec (self value : PKCS11KeyUsage) :
  PKCS11KeyUsage_eq self value = true
  <-> forall key, usage_get self key = usage_get value key.
Proof.
  destruct self as [c s w d r], value as [c' s' w' d' r'].
  unfold PKCS11KeyUsage_eq. simpl.
  split.
  - intros H key.
    destruct (value_ne r' r) eqn:E5; [discriminate|].
    destruct (value_ne d' d) eqn:E4; [discriminate|].
    destruct (value_ne w' w) eqn:E3; [discriminate|].
    destruct (value_ne s' s) eqn:E2; [discriminate|].
    destruct (value_ne c' c) eqn:E1; [discriminate|].
    apply value_ne_false in E1, E2, E3, E4, E5. subst.
    reflexivity.
  - intros H.
    pose proof (H CRYPT) as H1. pose proof (H SIGN) as H2.
    pose proof (H WRAP) as H3. pose proof (H DERIVE) as H4.
    pose proof (H RECOVER) as H5. simpl in *. subst.
    rewrite !(proj2 (value_ne_false _ _) eq_refl). reflexivity.
Qed.

(** ** [read_key_usage_from_key] by the class of the object *)

(** X23: [read_key_usage_from_key] gives, for a private key, the five bits
    read for decrypt, sign, unwrap, derive and sign-recover; for an object
    of the certificate class it raises a [KeyError], the class having no
    entry in [_key_usage]; and for an object with no class or with any other
    class but the public key's it returns [None]. *)
Theorem read_key_usage_by_class (s : Session) (h : Handle) :
  (class_of s h = Some CKO_PRIVATE_KEY ->
   read_key_usage_from_key s h
   = Return (Some (mkUsage (bit_of s h CKA_DECRYPT) (bit_of s h CKA_SIGN)
                           (bit_of s h CKA_UNWRAP) (bit_of s h CKA_DERIVE)
                           (bit_of s h CKA_SIGN_RECOVER))))
  /\ (class_of s h = Some CKO_CERTIFICATE ->
      read_key_usage_from_key s h
      = Raise (KeyError "KeyObjectTypes.certificate"))
  /\ (class_of s h = None -> read_key_usage_from_key s h = Return None)
  /\ (forall c, class_of s h = Some c ->
                c <> CKO_PRIVATE_KEY -> c <> CKO_PUBLIC_KEY ->
                c <> CKO_CERTIFICATE ->
                read_key_usage_from_key s h = Return None).
Proof.
  unfold read_key_usage_from_key. repeat split.
  - intros ->. vm_compute. reflexivity.
  - intros ->. reflexivity.
  - intros ->. reflexivity.
  - intros c -> H1 H2 H3. unfold _key_classes.
    apply Z.eqb_neq in H1, H2, H3. rewrite H1, H2, H3. reflexivity.
Qed.

Lemma read_key_usage_by_class_witness :
  read_key_usage_from_key
    (Mock.session "1234" [Mock.key1; Mock.key2; Mock.pub1]) 12
  = Return (Some (mkUsage (Some true) (Some true) (Some false) (Some false)
                          (Some false))).
Proof.
  apply (read_key_usage_by_class
           (Mock.session "1234" [Mock.key1; Mock.key2; Mock.pub1]) 12).
  reflexivity.
Defined.

(** ** The sessions that take no locator *)

Lemma label_loop_spec (library : Library) (_token_label : option string)
  (slots : list Slot) :
  forall slot lr,
    label_loop library _token_label slots slot lr
    = (match List.find (label_is library _token_label) slots with
       | Some sl => Some sl
       | None =>
           match _token_label, slots with
           | None, _ :: _ => Some (last slots 0)
           | _, _ => slot
           end
       end,
       lr || existsb (token_requires_login library)
               (up_to_match (label_is library _token_label) slots)).
Proof.
  induction slots as [|sl r IH]; intros slot lr.
  - simpl. rewrite orb_false_r. destruct _token_label; reflexivity.
  - cbn [label_loop List.find up_to_match].
    unfold label_is at 1 3.
    destruct _token_label as [l|].
    + destruct (String.eqb (Py.strip (ti_label (getTokenInfo library sl))) l).
      * simpl. unfold token_requires_login.
        destruct (requires_login (getTokenInfo library sl)), lr; reflexivity.
      * rewrite IH. cbn [existsb]. unfold token_requires_login at 2.
        destruct (List.find (label_is library (Some l)) r);
          destruct (requires_login (getTokenInfo library sl)), lr;
          destruct r; reflexivity.
    + rewrite IH. cbn [existsb]. unfold token_requires_login at 2.
      assert (Hf : List.find (label_is library None) r = None).
      { clear. induction r; simpl; auto. }
      rewrite Hf.
      destruct (requires_login (getTokenInfo library sl)), lr;
        destruct r; reflexivity.
Qed.

(** X24: with a token label, [PKCS11KeySession.open] and
    [PKCS11AdminSession.open] open the session on the first enumerated slot
    whose token label, trimmed, is the label; when no slot has it they
    return [None] and open nothing. *)
Theorem open_with_label_first_match (load : option string -> Library)
  (ks : KeySession.PKCS11KeySession) (adm : AdminSession.PKCS11AdminSession)
  (w : World) (l : string) :
  (KeySession._token_label ks = Some l ->
   let library := load (Some (KeySession._pksc11_lib ks)) in
   match List.find (label_is library (Some l)) (getSlotList library) with
   | Some sl =>
       exists more,
         calls (fst (KeySession.open load ks w))
         = (calls w ++ EvOpen sl :: more)%list
   | None => KeySession.open load ks w = (w, Return None)
   end)
  /\ (AdminSession._token_label adm = Some l ->
      let library := load (Some (AdminSession._pksc11_lib adm)) in
      match List.find (label_is library (Some l)) (getSlotList library) with
      | Some sl =>
          exists more,
            calls (fst (AdminSession.open load adm w))
            = (calls w ++ EvOpen sl :: more)%list
      | None => AdminSession.open load adm w = (w, Return None)
      end).
Proof.
  split; intros Hl library.
  - unfold KeySession.open. fold library. rewrite Hl, label_loop_spec.
    destruct (List.find (label_is library (Some l)) (getSlotList library))
      as [sl|]; [|reflexivity].
    destruct (false || _).
    + exists [EvLogin (KeySession._pin ks) CKU_USER].
      destruct (login_ok _ _ _); simpl; rewrite <- app_assoc; reflexivity.
    + exists []. reflexivity.
  - unfold AdminSession.open. fold library. rewrite Hl, label_loop_spec.
    destruct (List.find (label_is library (Some l)) (getSlotList library))
      as [sl|]; [|reflexivity].
    destruct (AdminSession._login_required adm || _).
    + exists [EvLogin (AdminSession._pin adm)
                (if AdminSession._norm_user adm then CKU_USER else CKU_SO)].
      destruct (login_ok _ _ _); simpl; rewrite <- app_assoc; reflexivity.
    + exists []. reflexivity.
Qed.

Lemma open_with_label_first_match_witness :
  exists more,
    calls (fst (KeySession.open Mock.load key_session_B world0))
    = EvOpen 2 :: more.
Proof.
  destruct (open_with_label_first_match Mock.load key_session_B
              admin_session_no_label world0 "B") as [H _].
  apply (H eq_refl).
Defined.

(** X25: the login of the two [open].  [PKCS11KeySession.open] logs in, as
    the user, exactly when a token among the slots visited (those up to the
    slot with the label, all of them without a label or a match) asks for a
    login; [PKCS11AdminSession.open] also when [_login_required] was set
    before the call, and with the role [_norm_user] says.  Nothing else is
    called after the session is opened. *)
Theorem open_login (load : option string -> Library)
  (ks : KeySession.PKCS11KeySession) (adm : AdminSession.PKCS11AdminSession)
  (w : World) (sl : Slot) (s : Session) :
  (snd (KeySession.open load ks w) = Return (Some (sl, s)) ->
   let library := load (Some (KeySession._pksc11_lib ks)) in
   calls (fst (KeySession.open load ks w))
   = (calls w ++ EvOpen sl
        :: (if existsb (token_requires_login library)
                 (up_to_match (label_is library (KeySession._token_label ks))
                              (getSlotList library))
            then [EvLogin (KeySession._pin ks) CKU_USER] else []))%list)
  /\ (snd (AdminSession.open load adm w) = Return (Some (sl, s)) ->
      let library := load (Some (AdminSession._pksc11_lib adm)) in
      calls (fst (AdminSession.open load adm w))
      = (calls w ++ EvOpen sl
           :: (if AdminSession._login_required adm
                  || existsb (token_requires_login library)
                       (up_to_match
                          (label_is library (AdminSession._token_label adm))
                          (getSlotList library))
               then [EvLogin (AdminSession._pin adm)
                       (if AdminSession._norm_user adm
                        then CKU_USER else CKU_SO)]
               else []))%list).
Proof.
  split; intros H library; revert H.
  - unfold KeySession.open. fold library. rewrite label_loop_spec.
    simpl orb.
    match goal with
    | |- context [match ?x with Some _ => _ | None => _ end] =>
        destruct x as [sl'|]; [|discriminate]
    end.
    destruct (existsb _ _).
    + destruct (login_ok _ _ _); simpl; intros H; [|discriminate].
      injection H as <- _. rewrite <- app_assoc. reflexivity.
    + simpl. intros H. injection H as <- _. reflexivity.
  - unfold AdminSession.open. fold library. rewrite label_loop_spec.
    match goal with
    | |- context [match ?x with Some _ => _ | None => _ end] =>
        destruct x as [sl'|]; [|discriminate]
    end.
    destruct (AdminSession._login_required adm || existsb _ _).
    + destruct (login_ok _ _ _); simpl; intros H; [|discriminate].
      injection H as <- _. rewrite <- app_assoc. reflexivity.
    + simpl. intros H. injection H as <- _. reflexivity.
Qed.

Lemma open_login_witness :
  calls (fst (KeySession.open Mock.load key_session_B world0))
  = ([] ++ [EvOpen 2; EvLogin "1234" CKU_USER])%list.
Proof.
  destruct (open_login Mock.load key_session_B admin_session_no_label world0
              2 (Mock.session "1234" [Mock.key1; Mock.key2; Mock.pub1]))
    as [H _].
  apply (H eq_refl).
Defined.

(** X26: neither [open] ever closes a session: when the token refuses the
    login the exception leaves with the session open, one more than
    before. *)
Theorem open_login_refused (load : option string -> Library)
  (ks : KeySession.PKCS11KeySession) (adm : AdminSession.PKCS11AdminSession)
  (w : World) (e : exn) :
  (snd (KeySession.open load ks w) = Raise e ->
   e = LoginFailure
   /\ open_count (fst (KeySession.open load ks w)) = S (open_count w))
  /\ (snd (AdminSession.open load adm w) = Raise e ->
      e = LoginFailure
      /\ open_count (fst (AdminSession.open load adm w)) = S (open_count w)).
Proof.
  split.
  - unfold KeySession.open.
    destruct (label_loop _ _ _ _ _) as [[sl|] lr]; [|discriminate].
    destruct lr; [|discriminate].
    destruct (login_ok _ _ _); simpl; intros H; [discriminate|].
    injection H as <-. auto.
  - unfold AdminSession.open.
    destruct (label_loop _ _ _ _ _) as [[sl|] lr]; [|discriminate].
    destruct lr; [|discriminate].
    destruct (login_ok _ _ _); simpl; intros H; [discriminate|].
    injection H as <-. auto.
Qed.

Lemma open_login_refused_witness :
  LoginFailure = LoginFailure
  /\ open_count (fst (KeySession.open Mock.load key_session_wrong_pin world0))
     = 1%nat.
Proof.
  destruct (open_login_refused Mock.load key_session_wrong_pin
              admin_session_no_label world0 LoginFailure) as [H _].
  apply H. reflexivity.
Defined.




